(** * generate_tx_for_signing.py: a shallow embedding and its properties

    The script holds one constant table, [TRANSACTIONS], and three emitters
    that walk it: [generate_tx_json] writes one JSON file per record and
    reports on standard output, [generate_copy_paste] and
    [generate_curl_commands] only print.

    Conventions of the embedding.
    - A Python [str] is a Rocq [string] holding its UTF-8 bytes.  Every
      field of the table is ASCII, so for them bytes and characters agree.
    - A Python [int] is a [Z].
    - A [dict] whose order matters (all of them here: [.items()] iterates
      in insertion order, [json.dump] writes keys in insertion order) is an
      association list; dicts with a fixed set of keys are records.
    - The file system is a finite map from file names to contents; standard
      output is the text written so far.
    - [open(name, 'w')] can raise [OSError]; the emitters are programs of a
      state-and-exception monad [IO].
    - [Py.lower] is [str.lower] on ASCII text and [Py.str] the decimal text
      of an [int] of at most 4300 digits, which covers the table; a
      property stated for any table or record assumes as much where it
      depends on either. *)

From Stdlib Require Import ZArith Ascii String DecimalString DecimalPos List Lia.
From stdpp Require Import gmap strings list.

Local Open Scope string_scope.
Local Open Scope list_scope.
Local Open Scope Z_scope.

(** ** Python primitives used by the script *)

Module Py.

(** [sys.int_info.default_max_str_digits]: CPython turns an [int] into
    decimal text, and decimal text into an [int], only up to this many
    digits; beyond it [str], an f-string, [json.dump] and [json.loads]
    raise [ValueError]. *)
Definition max_str_digits : Z := 4300.

Definition within_max_str_digits (n : Z) : bool :=
  Z.abs n <? 10 ^ max_str_digits.

(** [str(n)] and the [{n}] of an f-string, for an [int] with
    [within_max_str_digits]; the [ValueError] of a longer one is not
    modelled, so a statement about the text of any chain id assumes the
    bound. *)
Definition str (n : Z) : string := NilZero.string_of_int (Z.to_int n).

(** [c * n] for a one-character string [c]. *)
Fixpoint repeat (c : ascii) (n : nat) : string :=
  match n with
  | O => EmptyString
  | S n' => String c (repeat c n')
  end.

Definition is_upper (c : ascii) : bool := (("A" <=? c) && (c <=? "Z"))%char.

Definition lower_char (c : ascii) : ascii :=
  if is_upper c then ascii_of_N (N_of_ascii c + 32) else c.

(** [s.lower()] on ASCII text, where it changes the letters [A] to [Z]
    and nothing else.  [str.lower] also lowers letters outside ASCII; here
    the bytes of a multi-byte character are left as they are, so a
    statement that turns on the lower case of any token symbol assumes
    [is_ascii] of it. *)
Fixpoint lower (s : string) : string :=
  match s with
  | EmptyString => EmptyString
  | String c s' => String (lower_char c) (lower s')
  end.

Definition is_ascii_char (c : ascii) : bool := (c <? "128")%char.

Fixpoint is_ascii (s : string) : bool :=
  match s with
  | EmptyString => true
  | String c s' => is_ascii_char c && is_ascii s'
  end.

(** The line feed, the double quote and the backslash. *)
Definition nl : ascii := "010"%char.
Definition dquote : ascii := "034"%char.
Definition backslash : ascii := "092"%char.

Definition NL : string := String nl EmptyString.
Definition DQ : string := String dquote EmptyString.

End Py.

(** ** The constant data *)

Definition CONTRACT_ADDRESS : string := "0x8B173c2E4C84b4bdD8c656F3d47Bc4259594Bd48".

(** One element of a network's ["transactions"] list. *)
Record tx_entry := { token : string; data : string }.

(** The value stored under a network key. *)
Record network := {
  chainId : Z;
  name : string;
  transactions : list tx_entry
}.

(** An insertion-ordered dict from network key to network. *)
Definition table := list (string * network).

Definition TRANSACTIONS : table :=
  [ ("arbitrum",
     {| chainId := 42161;
        name := "Arbitrum One";
        transactions :=
          [ {| token := "ETH";
               data := "0xeb0835bf0000000000000000000000000000000000000000000000000000000000000000" |};
            {| token := "USDC";
               data := "0xeb0835bf000000000000000000000000af88d065e77c8cc2239327c5edb3a432268e5831" |};
            {| token := "USDT";
               data := "0xeb0835bf000000000000000000000000fd086bc7cd5c481dcc9c85ebe478a1c0b69fcbb9" |} ] |});
    ("base",
     {| chainId := 8453;
        name := "Base";
        transactions :=
          [ {| token := "ETH";
               data := "0xeb0835bf0000000000000000000000000000000000000000000000000000000000000000" |};
            {| token := "USDC";
               data := "0xeb0835bf000000000000000000000000833589fcd6edb6e08f4c7c32d4f71b54bda02913" |};
            {| token := "USDT";
               data := "0xeb0835bf000000000000000000000000fde4c96c8593536e31f229ea8f37b2ada2699bb2" |} ] |});
    ("optimism",
     {| chainId := 10;
        name := "Optimism";
        transactions :=
          [ {| token := "ETH";
               data := "0xeb0835bf0000000000000000000000000000000000000000000000000000000000000000" |};
            {| token := "USDC";
               data := "0xeb0835bf0000000000000000000000000b2c639c533813f4aa9d7837caf62653d097ff85" |};
            {| token := "USDT";
               data := "0xeb0835bf00000000000000000000000094b008aa00579c1307b0ef2c499ad98a8ce58e58" |} ] |});
    ("polygon",
     {| chainId := 137;
        name := "Polygon";
        transactions :=
          [ {| token := "ETH";
               data := "0xeb0835bf0000000000000000000000000000000000000000000000000000000000000000" |};
            {| token := "USDC";
               data := "0xeb0835bf0000000000000000000000002791bca1f2de4661ed88a30c99a7a9449aa84174" |};
            {| token := "USDT";
               data := "0xeb0835bf000000000000000000000000c2132d05d31c914a87c6611c10748aeb04b58e8f" |} ] |}) ].

(** ** The [json] module, as far as the script uses it

    [json.dump(obj, f, indent=2)] writes [dumps 2 obj]: Python's encoder with
    its defaults ([ensure_ascii=True], a comma between items, a colon and a
    space after a key).  [loads]
    is the decoder, needed to say what a written file {e means}.  Values are
    the Python objects both sides agree on, without floats: [loads] gives
    [None] where Python raises [JSONDecodeError] and also where the text
    holds a float or a lone surrogate. *)

Module Json.

#[warnings="-register-all"]
Inductive value :=
| Null
| Bool (b : bool)
| Int (n : Z)
| Str (s : string)
| Arr (items : list value)
| Obj (members : list (string * value)).

(** *** Encoding *)

Definition hex_digit (n : N) : ascii :=
  if (n <? 10)%N then ascii_of_N (48 + n) else ascii_of_N (87 + n).

(** ['\\u{0:04x}'.format(n)] *)
Definition u_escape (n : N) : string :=
  String Py.backslash
    (String "u"
       (String (hex_digit (N.land (N.shiftr n 12) 15))
          (String (hex_digit (N.land (N.shiftr n 8) 15))
             (String (hex_digit (N.land (N.shiftr n 4) 15))
                (String (hex_digit (N.land n 15)) EmptyString))))).

(** A code point as the encoder writes it when it must be escaped: one
    [\uXXXX], or a surrogate pair above the basic plane. *)
Definition escape_code_point (cp : N) : string :=
  if (cp <? 65536)%N then u_escape cp
  else
    let v := (cp - 65536)%N in
    u_escape (N.lor 55296 (N.land (N.shiftr v 10) 1023))
    +:+ u_escape (N.lor 56320 (N.land v 1023)).

Definition escape_ascii (c : ascii) : string :=
  let n := N_of_ascii c in
  if (n =? 34)%N then String Py.backslash (String Py.dquote EmptyString)
  else if (n =? 92)%N then String Py.backslash (String Py.backslash EmptyString)
  else if (n =? 10)%N then String Py.backslash "n"
  else if (n =? 13)%N then String Py.backslash "r"
  else if (n =? 9)%N then String Py.backslash "t"
  else if (n =? 12)%N then String Py.backslash "f"
  else if (n =? 8)%N then String Py.backslash "b"
  else if ((32 <=? n) && (n <=? 126))%N then String c EmptyString
  else u_escape n.

(** The payload bits of a UTF-8 continuation byte. *)
Definition cont (c : ascii) : N := N.land (N_of_ascii c) 63.

(** The body of [py_encode_basestring_ascii], on the UTF-8 bytes of the
    string: ASCII bytes one by one, longer sequences decoded to their code
    point first. *)
Fixpoint escape (s : string) : string :=
  match s with
  | EmptyString => EmptyString
  | String c r =>
      let n := N_of_ascii c in
      if (n <? 128)%N then escape_ascii c +:+ escape r
      else if (n <? 224)%N then
        match r with
        | String c1 r1 =>
            escape_code_point (N.lor (N.shiftl (N.land n 31) 6) (cont c1))
            +:+ escape r1
        | _ => EmptyString
        end
      else if (n <? 240)%N then
        match r with
        | String c1 (String c2 r2) =>
            escape_code_point
              (N.lor (N.shiftl (N.land n 15) 12)
                 (N.lor (N.shiftl (cont c1) 6) (cont c2)))
            +:+ escape r2
        | _ => EmptyString
        end
      else
        match r with
        | String c1 (String c2 (String c3 r3)) =>
            escape_code_point
              (N.lor (N.shiftl (N.land n 7) 18)
                 (N.lor (N.shiftl (cont c1) 12)
                    (N.lor (N.shiftl (cont c2) 6) (cont c3))))
            +:+ escape r3
        | _ => EmptyString
        end
  end.

Definition encode_basestring_ascii (s : string) : string :=
  Py.DQ +:+ escape s +:+ Py.DQ.

(** [separator.join(parts)] *)
Fixpoint join (sep : string) (parts : list string) : string :=
  match parts with
  | [] => EmptyString
  | [p] => p
  | p :: rest => p +:+ sep +:+ join sep rest
  end.

(** ['\n' + ' ' * (indent * level)] *)
Definition newline_indent (indent level : nat) : string :=
  Py.NL +:+ Py.repeat " " (indent * level).

(** [_iterencode] with an integer [indent], at nesting depth [level]. *)
Fixpoint encode (indent level : nat) (o : value) : string :=
  match o with
  | Null => "null"
  | Bool true => "true"
  | Bool false => "false"
  | Int n => Py.str n
  | Str s => encode_basestring_ascii s
  | Arr [] => "[]"
  | Arr items =>
      "[" +:+ newline_indent indent (S level)
      +:+ join ("," +:+ newline_indent indent (S level))
            (map (encode indent (S level)) items)
      +:+ newline_indent indent level +:+ "]"
  | Obj [] => "{}"
  | Obj members =>
      "{" +:+ newline_indent indent (S level)
      +:+ join ("," +:+ newline_indent indent (S level))
            (map (fun kv : string * value =>
                    encode_basestring_ascii (fst kv) +:+ ": "
                    +:+ encode indent (S level) (snd kv))
               members)
      +:+ newline_indent indent level +:+ "}"
  end.

(** [json.dumps(o, indent=indent)] *)
Definition dumps (indent : nat) (o : value) : string := encode indent 0 o.

(** *** Decoding *)

Definition is_ws (c : ascii) : bool :=
  let n := N_of_ascii c in
  ((n =? 32) || (n =? 9) || (n =? 10) || (n =? 13))%N.

(** [WHITESPACE.match(s, end).end()] *)
Fixpoint skip_ws (s : string) : string :=
  match s with
  | String c r => if is_ws c then skip_ws r else s
  | EmptyString => s
  end.

Definition is_digit (c : ascii) : bool :=
  let n := N_of_ascii c in ((48 <=? n) && (n <=? 57))%N.

Definition hexval (c : ascii) : option N :=
  let n := N_of_ascii c in
  if ((48 <=? n) && (n <=? 57))%N then Some (n - 48)%N
  else if ((97 <=? n) && (n <=? 102))%N then Some (n - 87)%N
  else if ((65 <=? n) && (n <=? 70))%N then Some (n - 55)%N
  else None.

(** The four hex digits after a backslash and a [u]. *)
Definition decode_uXXXX (h1 h2 h3 h4 : ascii) : option N :=
  match hexval h1, hexval h2, hexval h3, hexval h4 with
  | Some a, Some b, Some c, Some d => Some (4096 * a + 256 * b + 16 * c + d)%N
  | _, _, _, _ => None
  end.

Definition byte (n : N) : ascii := ascii_of_N n.

(** The UTF-8 bytes of a code point; a surrogate has none. *)
Definition utf8 (cp : N) : option string :=
  if (cp <? 128)%N then Some (String (byte cp) EmptyString)
  else if (cp <? 2048)%N then
    Some (String (byte (192 + N.shiftr cp 6))
            (String (byte (128 + N.land cp 63)) EmptyString))
  else if (cp <? 65536)%N then
    if ((55296 <=? cp) && (cp <=? 57343))%N then None
    else
      Some (String (byte (224 + N.shiftr cp 12))
              (String (byte (128 + N.land (N.shiftr cp 6) 63))
                 (String (byte (128 + N.land cp 63)) EmptyString)))
  else if (cp <? 1114112)%N then
    Some (String (byte (240 + N.shiftr cp 18))
            (String (byte (128 + N.land (N.shiftr cp 12) 63))
               (String (byte (128 + N.land (N.shiftr cp 6) 63))
                  (String (byte (128 + N.land cp 63)) EmptyString))))
  else None.

(** What a one-letter escape stands for. *)
Definition unescape (c : ascii) : option ascii :=
  let n := N_of_ascii c in
  if (n =? 34)%N then Some Py.dquote
  else if (n =? 92)%N then Some Py.backslash
  else if (n =? 47)%N then Some "/"%char
  else if (n =? 98)%N then Some "008"%char
  else if (n =? 102)%N then Some "012"%char
  else if (n =? 110)%N then Some "010"%char
  else if (n =? 114)%N then Some "013"%char
  else if (n =? 116)%N then Some "009"%char
  else None.

Definition prepend (chunk : option string) (k : option (string * string))
  : option (string * string) :=
  match chunk, k with
  | Some b, Some (str, rest) => Some (b +:+ str, rest)
  | _, _ => None
  end.

(** [scanstring(s, end)] in strict mode, [s] starting right after the
    opening quote: the decoded string and the text after the closing
    quote. *)
Fixpoint scanstring (s : string) : option (string * string) :=
  match s with
  | EmptyString => None
  | String c r =>
      if (c =? Py.dquote)%char then Some (EmptyString, r)
      else if (c =? Py.backslash)%char then
        match r with
        | EmptyString => None
        | String e r1 =>
            if (e =? "u")%char then
              match r1 with
              | String h1 (String h2 (String h3 (String h4 r2))) =>
                  match decode_uXXXX h1 h2 h3 h4 with
                  | None => None
                  | Some uni =>
                      if ((55296 <=? uni) && (uni <=? 56319))%N then
                        match r2 with
                        | String b (String v (String k1 (String k2 (String k3 (String k4 r3))))) =>
                            if ((b =? Py.backslash) && (v =? "u"))%char then
                              match decode_uXXXX k1 k2 k3 k4 with
                              | None => None
                              | Some uni2 =>
                                  if ((56320 <=? uni2) && (uni2 <=? 57343))%N then
                                    prepend
                                      (utf8 (65536 + N.lor (N.shiftl (uni - 55296) 10)
                                                       (uni2 - 56320)))
                                      (scanstring r3)
                                  else None
                              end
                            else None
                        | _ => None
                        end
                      else prepend (utf8 uni) (scanstring r2)
                  end
              | _ => None
              end
            else
              match unescape e with
              | Some ch => prepend (Some (String ch EmptyString)) (scanstring r1)
              | None => None
              end
        end
      else if (N_of_ascii c <? 32)%N then None
      else prepend (Some (String c EmptyString)) (scanstring r)
  end.

(** The digits at the head of [s], as a number, and what follows them. *)
Fixpoint digits (acc : Z) (s : string) : Z * string :=
  match s with
  | String c r =>
      if is_digit c then digits (10 * acc + Z.of_N (N_of_ascii c - 48)) r
      else (acc, s)
  | EmptyString => (acc, s)
  end.

(** Does a fraction or an exponent follow the integer part?  Then
    [NUMBER_RE] matches a float. *)
Definition float_follows (s : string) : bool :=
  match s with
  | String c (String d r) =>
      if (c =? ".")%char then is_digit d
      else if ((c =? "e") || (c =? "E"))%char then
        is_digit d
        || (((d =? "+") || (d =? "-"))%char
            && match r with String d' _ => is_digit d' | EmptyString => false end)
      else false
  | _ => false
  end.

(** The integer part of [NUMBER_RE]: a zero, or a nonzero digit and more
    digits. *)
Definition natural (s : string) : option (Z * string) :=
  match s with
  | String c r =>
      if (c =? "0")%char then Some (0, r)
      else if is_digit c then Some (digits 0 s)
      else None
  | EmptyString => None
  end.

Definition number (s : string) : option (value * string) :=
  let signed :=
    match s with
    | String c r =>
        if (c =? "-")%char then
          match natural r with
          | Some (n, rest) => Some (- n, rest)
          | None => None
          end
        else natural s
    | EmptyString => None
    end in
  match signed with
  | Some (n, rest) => if float_follows rest then None else Some (Int n, rest)
  | None => None
  end.

(** [s[len(p):]] when [s.startswith(p)]. *)
Fixpoint after_prefix (p s : string) : option string :=
  match p, s with
  | EmptyString, _ => Some s
  | String a p', String b s' => if (a =? b)%char then after_prefix p' s' else None
  | String _ _, EmptyString => None
  end.

(** [d[k] = v] on an insertion-ordered dict. *)
Fixpoint dict_set (d : list (string * value)) (k : string) (v : value)
  : list (string * value) :=
  match d with
  | [] => [(k, v)]
  | (k', v') :: d' =>
      if String.eqb k k' then (k', v) :: d' else (k', v') :: dict_set d' k v
  end.

(** [dict(pairs)] *)
Definition dict (pairs : list (string * value)) : list (string * value) :=
  fold_left (fun d kv => dict_set d (fst kv) (snd kv)) pairs [].

(** [scan_once], [JSONArray] and [JSONObject].  The three call each other
    on ever shorter text; [fuel] bounds the number of calls.
    - [scan_once fuel s] reads one value at the head of [s];
    - [array_items fuel s acc] is the loop of [JSONArray], [s] at the head
      of an item, [acc] the items read so far, last first;
    - [object_members fuel s acc] is the loop of [JSONObject], [s] right
      after the opening quote of a key. *)
Fixpoint scan_once (fuel : nat) (s : string) : option (value * string) :=
  match fuel with
  | O => None
  | S fuel' =>
      match s with
      | EmptyString => None
      | String c r =>
          if (c =? Py.dquote)%char then
            match scanstring r with
            | Some (str, rest) => Some (Str str, rest)
            | None => None
            end
          else if (c =? "{")%char then
            match skip_ws r with
            | String c1 r1 =>
                if (c1 =? "}")%char then Some (Obj [], r1)
                else if (c1 =? Py.dquote)%char then object_members fuel' r1 []
                else None
            | EmptyString => None
            end
          else if (c =? "[")%char then
            match skip_ws r with
            | String c1 r1 =>
                if (c1 =? "]")%char then Some (Arr [], r1)
                else array_items fuel' (String c1 r1) []
            | EmptyString => None
            end
          else
            match after_prefix "null" s, after_prefix "true" s, after_prefix "false" s with
            | Some rest, _, _ => Some (Null, rest)
            | _, Some rest, _ => Some (Bool true, rest)
            | _, _, Some rest => Some (Bool false, rest)
            | None, None, None => number s
            end
      end
  end
with array_items (fuel : nat) (s : string) (acc : list value)
  : option (value * string) :=
  match fuel with
  | O => None
  | S fuel' =>
      match scan_once fuel' s with
      | Some (v, rest) =>
          match skip_ws rest with
          | String c r =>
              if (c =? "]")%char then Some (Arr (rev (v :: acc)), r)
              else if (c =? ",")%char then array_items fuel' (skip_ws r) (v :: acc)
              else None
          | EmptyString => None
          end
      | None => None
      end
  end
with object_members (fuel : nat) (s : string) (acc : list (string * value))
  : option (value * string) :=
  match fuel with
  | O => None
  | S fuel' =>
      match scanstring s with
      | Some (key, rest) =>
          match skip_ws rest with
          | String c r =>
              if (c =? ":")%char then
                match scan_once fuel' (skip_ws r) with
                | Some (v, rest') =>
                    match skip_ws rest' with
                    | String c1 r1 =>
                        if (c1 =? "}")%char then
                          Some (Obj (dict (rev ((key, v) :: acc))), r1)
                        else if (c1 =? ",")%char then
                          match skip_ws r1 with
                          | String c2 r2 =>
                              if (c2 =? Py.dquote)%char
                              then object_members fuel' r2 ((key, v) :: acc)
                              else None
                          | EmptyString => None
                          end
                        else None
                    | EmptyString => None
                    end
                | None => None
                end
              else None
          | EmptyString => None
          end
      | None => None
      end
  end.

(** [o[key]] for a dict [o]. *)
Definition get (key : string) (o : value) : option value :=
  match o with
  | Obj members =>
      match find (fun kv => String.eqb (fst kv) key) members with
      | Some kv => Some (snd kv)
      | None => None
      end
  | _ => None
  end.

(** [json.loads(s)]: one value, white space around it, nothing else. *)
Definition loads (s : string) : option value :=
  match scan_once (S (String.length s)) (skip_ws s) with
  | Some (v, rest) =>
      match skip_ws rest with
      | EmptyString => Some v
      | String _ _ => None
      end
  | None => None
  end.

End Json.

(** ** The world the script runs in, and the monad of its effects *)

(** What the script can touch: the files of the working directory, standard
    output, and which file names [open(name, 'w')] accepts. *)
Record world := {
  fs : gmap string string;
  stdout : string;
  writable : string -> bool
}.

Inductive exn := OSError (filename : string).

Inductive outcome (A : Type) :=
| Returned (a : A) (w : world)
| Raised (e : exn) (w : world).

Arguments Returned {A} a w.
Arguments Raised {A} e w.

Definition IO (A : Type) : Type := world -> outcome A.

Definition ret {A} (a : A) : IO A := fun w => Returned a w.

(** Sequencing; an exception skips the rest. *)
Definition bind {A B} (m : IO A) (k : A -> IO B) : IO B :=
  fun w =>
    match m w with
    | Returned a w' => k a w'
    | Raised e w' => Raised e w'
    end.

Declare Scope io_scope.
Delimit Scope io_scope with io.
Bind Scope io_scope with IO.
Notation "m ;; k" := (bind m (fun _ => k))
  (at level 100, k at level 200, right associativity) : io_scope.

(** [for x in l: body(x)] *)
Fixpoint for_each {A} (l : list A) (body : A -> IO unit) : IO unit :=
  match l with
  | [] => ret tt
  | x :: l' => (body x ;; for_each l' body)%io
  end.

(** [print(s)] *)
Definition print (s : string) : IO unit :=
  fun w =>
    Returned tt {| fs := fs w;
                   stdout := stdout w +:+ s +:+ Py.NL;
                   writable := writable w |}.

(** [with open(filename, 'w') as f: f.write(content)]: the file is created
    or replaced, or [open] raises. *)
Definition write_file (filename content : string) : IO unit :=
  fun w =>
    if writable w filename then
      Returned tt {| fs := <[filename := content]> (fs w);
                     stdout := stdout w;
                     writable := writable w |}
    else Raised (OSError filename) w.

(** ** The three emitters

    Each is given over an arbitrary table first (the loops do not care
    which), then at [TRANSACTIONS], as the script has it. *)

Definition BS : string := String Py.backslash EmptyString.

(** The dict literal built in the loop of [generate_tx_json]. *)
Definition transaction (network_data : network) (tx : tx_entry) : Json.value :=
  Json.Obj [ ("to", Json.Str CONTRACT_ADDRESS);
             ("value", Json.Str "0x0");
             ("data", Json.Str (data tx));
             ("chainId", Json.Int (chainId network_data)) ].

(** [f"tx_{network_key}_{tx['token'].lower()}.json"] *)
Definition filename (network_key : string) (tx : tx_entry) : string :=
  "tx_" +:+ network_key +:+ "_" +:+ Py.lower (token tx) +:+ ".json".

Definition generate_tx_json_over (T : table) : IO unit :=
  for_each T (fun '(network_key, network_data) =>
    (print (Py.NL +:+ Py.repeat "=" 50) ;;
     print ("🌐 " +:+ name network_data +:+ " (Chain ID: "
            +:+ Py.str (chainId network_data) +:+ ")") ;;
     print (Py.repeat "=" 50) ;;
     for_each (transactions network_data) (fun tx =>
       (write_file (filename network_key tx)
          (Json.dumps 2 (transaction network_data tx)) ;;
        print (Py.NL +:+ "✅ Criado: " +:+ filename network_key tx) ;;
        print ("   Token: " +:+ token tx) ;;
        print "   Para usar: Importe este JSON na sua wallet")))%io).

Definition generate_tx_json : IO unit := generate_tx_json_over TRANSACTIONS.

Definition generate_copy_paste_over (T : table) : IO unit :=
  (print (Py.NL +:+ Py.NL +:+ Py.repeat "=" 70) ;;
   print "📋 COMANDOS PARA COPIAR E COLAR NO CONSOLE" ;;
   print (Py.repeat "=" 70) ;;
   for_each T (fun '(network_key, network_data) =>
     (print (Py.NL +:+ "// " +:+ name network_data +:+ " (Chain ID: "
             +:+ Py.str (chainId network_data) +:+ ")") ;;
      print ("// Certifique-se de estar na rede correta!" +:+ Py.NL) ;;
      for_each (transactions network_data) (fun tx =>
        (print ("// Habilitar " +:+ token tx +:+ ":") ;;
         print "await ethereum.request({" ;;
         print "  method: 'eth_sendTransaction'," ;;
         print "  params: [{" ;;
         print "    from: ethereum.selectedAddress," ;;
         print ("    to: '" +:+ CONTRACT_ADDRESS +:+ "',") ;;
         print ("    data: '" +:+ data tx +:+ "',") ;;
         print "    value: '0x0'" ;;
         print "  }]" ;;
         print "});" ;;
         print EmptyString)))))%io.

Definition generate_copy_paste : IO unit := generate_copy_paste_over TRANSACTIONS.

Definition generate_curl_commands_over (T : table) : IO unit :=
  (print (Py.NL +:+ Py.NL +:+ Py.repeat "=" 70) ;;
   print "🔧 COMANDOS CURL PARA WALLETS QUE SUPORTAM API" ;;
   print (Py.repeat "=" 70) ;;
   for_each T (fun '(network_key, network_data) =>
     (print (Py.NL +:+ "# " +:+ name network_data) ;;
      for_each (transactions network_data) (fun tx =>
        (print (Py.NL +:+ "# Habilitar " +:+ token tx +:+ ":") ;;
         print ("curl -X POST -H 'Content-Type: application/json' " +:+ BS) ;;
         print "  -d '{" ;;
         print ("    " +:+ Py.DQ +:+ "to" +:+ Py.DQ +:+ ": "
                +:+ Py.DQ +:+ CONTRACT_ADDRESS +:+ Py.DQ +:+ ",") ;;
         print ("    " +:+ Py.DQ +:+ "data" +:+ Py.DQ +:+ ": "
                +:+ Py.DQ +:+ data tx +:+ Py.DQ +:+ ",") ;;
         print ("    " +:+ Py.DQ +:+ "value" +:+ Py.DQ +:+ ": "
                +:+ Py.DQ +:+ "0x0" +:+ Py.DQ) ;;
         print ("  }' " +:+ BS) ;;
         print "  YOUR_WALLET_API_ENDPOINT")))))%io.

Definition generate_curl_commands : IO unit :=
  generate_curl_commands_over TRANSACTIONS.

(** The [if __name__ == "__main__":] block. *)
Definition main : IO unit :=
  (print "🔧 Gerador de Transações para Habilitar Tokens" ;;
   print (Py.repeat "=" 70) ;;
   generate_tx_json ;;
   generate_copy_paste ;;
   generate_curl_commands ;;
   print (Py.NL +:+ Py.NL +:+ "✅ Pronto! Use qualquer um dos métodos acima.") ;;
   print "💡 Dica: Os arquivos JSON podem ser importados em muitas wallets.")%io.

(** ** Vocabulary for the properties *)

(** The records of a table: the triples the nested loops of every emitter
    visit, in the order they visit them. *)
Definition records (T : table) : list (string * network * tx_entry) :=
  flat_map (fun '(network_key, network_data) =>
              map (fun tx => (network_key, network_data, tx))
                (transactions network_data)) T.

(** The writes [generate_tx_json_over T] asks for, in order: file name and
    content. *)
Definition emitted (T : table) : list (string * string) :=
  map (fun '(network_key, network_data, tx) =>
         (filename network_key tx, Json.dumps 2 (transaction network_data tx)))
    (records T).

(** A file system after a sequence of writes. *)
Definition write_all (writes : list (string * string)) (files : gmap string string)
  : gmap string string :=
  fold_left (fun m '(f, c) => <[f := c]> m) writes files.

(** The content the last write to [f] left, if [f] was written at all. *)
Fixpoint last_write (writes : list (string * string)) (f : string) : option string :=
  match writes with
  | [] => None
  | (f', c) :: rest =>
      match last_write rest f with
      | Some c' => Some c'
      | None => if String.eqb f' f then Some c else None
      end
  end.

(** A world with [text] added to standard output. *)
Definition emit (text : string) (w : world) : world :=
  {| fs := fs w; stdout := stdout w +:+ text; writable := writable w |}.

(** An empty directory and a silent terminal. *)
Definition blank : world :=
  {| fs := ∅; stdout := EmptyString; writable := fun _ => true |}.

(** What a program prints when started in [blank]. *)
Definition printed (m : IO unit) : string :=
  match m blank with
  | Returned _ w => stdout w
  | Raised _ w => stdout w
  end.

(** A program that returns, having done nothing but print, and the same
    text whatever the world. *)
Definition print_only (m : IO unit) : Prop :=
  forall w, m w = Returned tt (emit (printed m) w).

(** [text.split('\n')] *)
Fixpoint lines (text : string) : list string :=
  match text with
  | EmptyString => [EmptyString]
  | String c r =>
      if (c =? Py.nl)%char then EmptyString :: lines r
      else
        match lines r with
        | l :: ls => String c l :: ls
        | [] => [String c EmptyString]
        end
  end.

Definition no_newline (s : string) : Prop := lines s = [s].

(** The lines that do not start with [mark]: everything but the comments,
    when [mark] opens a comment. *)
Definition code_lines (mark : string) (text : string) : list string :=
  List.filter (fun l => negb (String.prefix mark l)) (lines text).

Definition nonblank (ls : list string) : list string :=
  List.filter (fun l => negb (String.eqb l EmptyString)) ls.

(** How many times [p] occurs in [s]. *)
Fixpoint occurrences (p s : string) : nat :=
  match s with
  | EmptyString => O
  | String _ r => ((if String.prefix p s then 1 else 0) + occurrences p r)%nat
  end.

(** [s1 + s2 + ...] *)
Fixpoint cat (parts : list string) : string :=
  match parts with
  | [] => EmptyString
  | p :: rest => p +:+ cat rest
  end.

(** The same table with other chain ids. *)
Definition with_chain_ids (f : Z -> Z) (T : table) : table :=
  map (fun '(network_key, network_data) =>
         (network_key,
          {| chainId := f (chainId network_data);
             name := name network_data;
             transactions := transactions network_data |})) T.

Definition is_hex_digit (c : ascii) : bool :=
  match Json.hexval c with Some _ => true | None => false end.

Fixpoint all_chars (p : ascii -> bool) (s : string) : bool :=
  match s with
  | EmptyString => true
  | String c r => p c && all_chars p r
  end.

(** No two records of different (network key, token symbol) carry the same
    calldata. *)
Definition calldata_unique (T : table) : Prop :=
  forall k1 nd1 tx1 k2 nd2 tx2,
    In (k1, nd1, tx1) (records T) ->
    In (k2, nd2, tx2) (records T) ->
    (k1, token tx1) <> (k2, token tx2) ->
    data tx1 <> data tx2.

(** All records have the same recipient and the same value. *)
Definition uniform_recipient_and_value (T : table) : Prop :=
  forall k1 nd1 tx1 k2 nd2 tx2,
    In (k1, nd1, tx1) (records T) ->
    In (k2, nd2, tx2) (records T) ->
    Json.get "to" (transaction nd1 tx1) = Json.get "to" (transaction nd2 tx2)
    /\ Json.get "value" (transaction nd1 tx1) = Json.get "value" (transaction nd2 tx2).

(** The records of the native token, in the order of the table. *)
Definition eth_records (T : table) : list (string * network * tx_entry) :=
  List.filter (fun r => String.eqb (token (snd r)) "ETH") (records T).

(** The calldata that names the native token: the selector, then the zero
    address as a word of 32 bytes. *)
Definition zero_address_calldata : string :=
  "0x" +:+ "eb0835bf" +:+ Py.repeat "0" 64.

(** A [curl] command line that posts [body] as JSON to [endpoint], broken
    over three lines. *)
Definition curl_post (body endpoint : string) : string :=
  "curl -X POST -H 'Content-Type: application/json' " +:+ BS +:+ Py.NL
  +:+ "  -d '" +:+ body +:+ "' " +:+ BS +:+ Py.NL
  +:+ "  " +:+ endpoint +:+ Py.NL.

(** The text between the quotes of [-d] in the command printed for [tx]. *)
Definition curl_body (tx : tx_entry) : string :=
  "{" +:+ Py.NL
  +:+ "    " +:+ Py.DQ +:+ "to" +:+ Py.DQ +:+ ": "
      +:+ Py.DQ +:+ CONTRACT_ADDRESS +:+ Py.DQ +:+ "," +:+ Py.NL
  +:+ "    " +:+ Py.DQ +:+ "data" +:+ Py.DQ +:+ ": "
      +:+ Py.DQ +:+ data tx +:+ Py.DQ +:+ "," +:+ Py.NL
  +:+ "    " +:+ Py.DQ +:+ "value" +:+ Py.DQ +:+ ": "
      +:+ Py.DQ +:+ "0x0" +:+ Py.DQ +:+ Py.NL
  +:+ "  }".

(** The three lines every print-only emitter starts with, under the title
    [title]. *)
Definition banner (title : string) : string :=
  Py.NL +:+ Py.NL +:+ Py.repeat "=" 70 +:+ Py.NL
  +:+ title +:+ Py.NL
  +:+ Py.repeat "=" 70 +:+ Py.NL.

(** The lines of the console snippet of a record that are not comments. *)
Definition console_payload (tx : tx_entry) : list string :=
  [ "await ethereum.request({";
    "  method: 'eth_sendTransaction',";
    "  params: [{";
    "    from: ethereum.selectedAddress,";
    "    to: '" +:+ CONTRACT_ADDRESS +:+ "',";
    "    data: '" +:+ data tx +:+ "',";
    "    value: '0x0'";
    "  }]";
    "});" ].

(** Two texts that, put in front of texts with the same code lines, give
    texts with the same code lines: they differ in comments only, and both
    end where a line ends. *)
Definition code_eq (mark a a' : string) : Prop :=
  forall r r', code_lines mark r = code_lines mark r' ->
               code_lines mark (a +:+ r) = code_lines mark (a' +:+ r').

Definition not_newline (c : ascii) : bool := negb (c =? Py.nl)%char.

(** A program that returns, having made the writes [ws] in order and
    printed something, when started in [w]. *)
Definition effect (ws : list (string * string)) (w w' : world) : Prop :=
  fs w' = write_all ws (fs w)
  /\ writable w' = writable w
  /\ exists text, stdout w' = stdout w +:+ text.

Definition performs (m : IO unit) (ws : list (string * string)) (w : world) : Prop :=
  exists w', m w = Returned tt w' /\ effect ws w w'.

(** Every file name the file emitter will open can be opened. *)
Definition can_emit (T : table) (w : world) : Prop :=
  Forall (fun f => writable w f = true) (map fst (emitted T)).

(** ** Vocabulary for the behaviour on any table and in any world *)

(** The writes [ws] tried in order on the files [m], as far as [ok] lets
    them: the files left, and the first name that could not be opened. *)
Fixpoint attempt (ok : string -> bool) (ws : list (string * string))
    (m : gmap string string) : gmap string string * option string :=
  match ws with
  | [] => (m, None)
  | (f, c) :: rest =>
      if ok f then attempt ok rest (<[f := c]> m) else (m, Some f)
  end.

(** [m] started in [w] makes the writes [ws] as far as they go: it returns
    when all went through and raises [OSError] at the first that did not. *)
Definition tries (m : IO unit) (ws : list (string * string)) (w : world) : Prop :=
  exists w',
    m w = match snd (attempt (writable w) ws (fs w)) with
          | None => Returned tt w'
          | Some f => Raised (OSError f) w'
          end
    /\ fs w' = fst (attempt (writable w) ws (fs w))
    /\ writable w' = writable w.

(** [m] started in [w] returns, having made the writes [ws] and printed
    [text]. *)
Definition runs (m : IO unit) (ws : list (string * string)) (text : string)
    (w : world) : Prop :=
  exists w',
    m w = Returned tt w'
    /\ fs w' = write_all ws (fs w)
    /\ writable w' = writable w
    /\ stdout w' = stdout w +:+ text.

Definition not_underscore (c : ascii) : bool := negb (c =? "_")%char.


(** What [generate_tx_json_over T] prints when all its files open. *)
Definition report (T : table) : string :=
  cat (map (fun '(network_key, network_data) =>
              Py.NL +:+ Py.repeat "=" 50 +:+ Py.NL
              +:+ "🌐 " +:+ name network_data +:+ " (Chain ID: "
                  +:+ Py.str (chainId network_data) +:+ ")" +:+ Py.NL
              +:+ Py.repeat "=" 50 +:+ Py.NL
              +:+ cat (map (fun tx =>
                              Py.NL +:+ "✅ Criado: " +:+ filename network_key tx +:+ Py.NL
                              +:+ "   Token: " +:+ token tx +:+ Py.NL
                              +:+ "   Para usar: Importe este JSON na sua wallet" +:+ Py.NL)
                         (transactions network_data)))
         T).


(** The first two lines [main] prints, and what it prints last. *)
Definition title : string :=
  "🔧 Gerador de Transações para Habilitar Tokens" +:+ Py.NL
  +:+ Py.repeat "=" 70 +:+ Py.NL.

Definition farewell : string :=
  Py.NL +:+ Py.NL +:+ "✅ Pronto! Use qualquer um dos métodos acima." +:+ Py.NL
  +:+ "💡 Dica: Os arquivos JSON podem ser importados em muitas wallets." +:+ Py.NL.




Definition base_locked : world :=
  {| fs := ∅;
     stdout := EmptyString;
     writable := fun f => negb (String.eqb f "tx_base_eth.json") |}.

(** ** Vocabulary for what the files and the snippets hold *)

(** The number a decimal stands for, read after the digits worth [acc]. *)
Fixpoint uint_value (acc : Z) (d : Decimal.uint) : Z :=
  match d with
  | Decimal.Nil => acc
  | Decimal.D0 d' => uint_value (10 * acc + 0) d'
  | Decimal.D1 d' => uint_value (10 * acc + 1) d'
  | Decimal.D2 d' => uint_value (10 * acc + 2) d'
  | Decimal.D3 d' => uint_value (10 * acc + 3) d'
  | Decimal.D4 d' => uint_value (10 * acc + 4) d'
  | Decimal.D5 d' => uint_value (10 * acc + 5) d'
  | Decimal.D6 d' => uint_value (10 * acc + 6) d'
  | Decimal.D7 d' => uint_value (10 * acc + 7) d'
  | Decimal.D8 d' => uint_value (10 * acc + 8) d'
  | Decimal.D9 d' => uint_value (10 * acc + 9) d'
  end.

(** The text goes on with something that is not a digit. *)
Definition no_digit_ahead (s : string) : bool :=
  match s with
  | String c _ => negb (Json.is_digit c)
  | EmptyString => true
  end.

(** The first character of [str(n)]: a digit or the sign. *)
Definition number_head (c : ascii) : bool :=
  Json.is_digit c || (c =? "-")%char.

(** A value without structure: what a flat object holds. *)
Definition flat (v : Json.value) : bool :=
  match v with
  | Json.Null | Json.Bool _ | Json.Int _ => true
  | Json.Str s => Py.is_ascii s
  | Json.Arr _ | Json.Obj _ => false
  end.

(** An object of ASCII keys, all different, and flat values. *)
Definition flat_object (members : list (string * Json.value)) : Prop :=
  List.NoDup (map fst members)
  /\ Forall (fun kv => Py.is_ascii (fst kv) = true /\ flat (snd kv) = true) members.

(** The text goes on with a comma, white space or a closing brace. *)
Definition item_ends (s : string) : bool :=
  match s with
  | String c _ => (c =? ",")%char || Json.is_ws c || (c =? "}")%char
  | EmptyString => false
  end.

(** One member of an object as the encoder writes it. *)
Definition item (kv : string * Json.value) : string :=
  Json.encode_basestring_ascii (fst kv) +:+ ": " +:+ Json.encode 2 1 (snd kv).

(** An object laid out with the white space [inner] before each member and
    [outer] before the closing brace. *)
Definition object_text (inner outer : string) (ms : list (string * Json.value))
  : string :=
  "{" +:+ inner +:+ Json.join ("," +:+ inner) (map item ms) +:+ outer +:+ "}".



(** A printable ASCII character. *)
Definition is_printable (c : ascii) : bool :=
  let n := N_of_ascii c in ((32 <=? n) && (n <=? 126))%N.

(** * Properties *)

(** ** Strings *)

Lemma append_cons (x : ascii) (a b : string) :
  String x a +:+ b = String x (a +:+ b).
Proof. reflexivity. Qed.

Lemma append_assoc (a b c : string) : (a +:+ b) +:+ c = a +:+ b +:+ c.
Proof.
  induction a as [|x a IH]; [reflexivity|].
  now rewrite !append_cons, IH.
Qed.

Lemma append_nil_r (a : string) : a +:+ EmptyString = a.
Proof.
  induction a as [|x a IH]; [reflexivity|].
  now rewrite append_cons, IH.
Qed.

Lemma cat_app (xs ys : list string) : cat (xs ++ ys) = cat xs +:+ cat ys.
Proof.
  induction xs as [|x xs IH]; cbn [cat app]; [reflexivity|].
  now rewrite IH, append_assoc.
Qed.

(** ** The monad *)

Lemma emit_nil (w : world) : emit EmptyString w = w.
Proof. destruct w; unfold emit; cbn [fs stdout writable]. now rewrite append_nil_r. Qed.

Lemma emit_emit (a b : string) (w : world) : emit b (emit a w) = emit (a +:+ b) w.
Proof. unfold emit; cbn [fs stdout writable]. now rewrite append_assoc. Qed.

Lemma printed_emit (m : IO unit) (text : string) :
  m blank = Returned tt (emit text blank) -> printed m = text.
Proof. unfold printed. intros ->. reflexivity. Qed.

Lemma print_only_intro (m : IO unit) (text : string) :
  (forall w, m w = Returned tt (emit text w)) -> print_only m /\ printed m = text.
Proof.
  intros H. assert (E : printed m = text) by (apply printed_emit, H).
  split; [|exact E]. intros w. rewrite E. apply H.
Qed.

Lemma print_spec (s : string) :
  print_only (print s) /\ printed (print s) = s +:+ Py.NL.
Proof. apply print_only_intro. reflexivity. Qed.

Lemma ret_spec : print_only (ret tt) /\ printed (ret tt) = EmptyString.
Proof. apply print_only_intro. intros w. unfold ret. now rewrite emit_nil. Qed.

Lemma bind_spec (m k : IO unit) :
  print_only m -> print_only k ->
  print_only (m ;; k)%io /\ printed (m ;; k)%io = printed m +:+ printed k.
Proof.
  intros Hm Hk. apply print_only_intro. intros w.
  unfold bind. rewrite Hm, Hk. now rewrite emit_emit.
Qed.

Lemma for_each_spec {A} (l : list A) (body : A -> IO unit) :
  (forall x, print_only (body x)) ->
  print_only (for_each l body)
  /\ printed (for_each l body) = cat (map (fun x => printed (body x)) l).
Proof.
  intros Hb. induction l as [|x l [IHo IHp]]; simpl.
  - apply ret_spec.
  - destruct (bind_spec (body x) (for_each l body) (Hb x) IHo) as [Ho Hp].
    split; [exact Ho|]. now rewrite Hp, IHp.
Qed.

Lemma print_only_print (s : string) : print_only (print s).
Proof. apply print_spec. Qed.

Lemma print_only_bind (m k : IO unit) :
  print_only m -> print_only k -> print_only (m ;; k)%io.
Proof. intros Hm Hk. now apply bind_spec. Qed.

Lemma print_only_for_each {A} (l : list A) (body : A -> IO unit) :
  (forall x, print_only (body x)) -> print_only (for_each l body).
Proof. intros Hb. now apply for_each_spec. Qed.

Lemma printed_print (s : string) : printed (print s) = s +:+ Py.NL.
Proof. apply print_spec. Qed.

Lemma printed_bind (m k : IO unit) :
  print_only m -> print_only k -> printed (m ;; k)%io = printed m +:+ printed k.
Proof. intros Hm Hk. now apply bind_spec. Qed.

Lemma printed_for_each {A} (l : list A) (body : A -> IO unit) :
  (forall x, print_only (body x)) ->
  printed (for_each l body) = cat (map (fun x => printed (body x)) l).
Proof. intros Hb. now apply for_each_spec. Qed.

Ltac print_only :=
  repeat lazymatch goal with
    | |- print_only (print _) => apply print_only_print
    | |- print_only (bind _ _) => apply print_only_bind
    | |- print_only (for_each _ _) => apply print_only_for_each; intros ?
    | |- print_only (let '(_, _) := ?p in _) => destruct p
    | |- print_only ((fun _ => _) _) => cbv beta
    end.

Lemma generate_copy_paste_over_print_only (T : table) :
  print_only (generate_copy_paste_over T).
Proof. unfold generate_copy_paste_over. print_only. Qed.

Lemma generate_curl_commands_over_print_only (T : table) :
  print_only (generate_curl_commands_over T).
Proof. unfold generate_curl_commands_over. print_only. Qed.

(** ** Sequences of writes *)

Lemma write_all_app (a b : list (string * string)) (m : gmap string string) :
  write_all (a ++ b) m = write_all b (write_all a m).
Proof. unfold write_all. apply fold_left_app. Qed.

Lemma lookup_write_all (ws : list (string * string)) (m : gmap string string) (f : string) :
  write_all ws m !! f =
  match last_write ws f with
  | Some c => Some c
  | None => m !! f
  end.
Proof.
  revert m. induction ws as [|[f' c] ws IH]; intros m; [reflexivity|].
  change (write_all ((f', c) :: ws) m) with (write_all ws (<[f' := c]> m)).
  rewrite IH. cbn [last_write].
  destruct (last_write ws f); [reflexivity|].
  destruct (String.eqb_spec f' f) as [->|Hne].
  - apply lookup_insert_eq.
  - now apply lookup_insert_ne.
Qed.

Lemma last_write_None (ws : list (string * string)) (f : string) :
  ~ In f (map fst ws) -> last_write ws f = None.
Proof.
  induction ws as [|[f' c] ws IH]; intros Hnot; [reflexivity|].
  cbn [last_write]. rewrite IH by (intros Hin; apply Hnot; now right).
  destruct (String.eqb_spec f' f) as [->|Hne]; [|reflexivity].
  exfalso. apply Hnot. now left.
Qed.

(** With no file name written twice, a file holds what its one write put
    there. *)
Lemma last_write_NoDup (ws : list (string * string)) (f c : string) :
  NoDup (map fst ws) -> In (f, c) ws -> last_write ws f = Some c.
Proof.
  induction ws as [|[f' c'] ws IH]; intros Hnd Hin; [destruct Hin|].
  apply NoDup_cons in Hnd as [Hnotin Hnd]. cbn [last_write].
  destruct Hin as [Heq|Hin].
  - injection Heq as -> ->.
    rewrite last_write_None; [now rewrite String.eqb_refl|].
    intros Hin. apply Hnotin. now apply list_elem_of_In.
  - now rewrite (IH Hnd Hin).
Qed.

(** Writing the same sequence a second time changes nothing. *)
Lemma write_all_idempotent (ws : list (string * string)) (m : gmap string string) :
  write_all ws (write_all ws m) = write_all ws m.
Proof.
  apply map_eq. intros f. rewrite !lookup_write_all.
  now destruct (last_write ws f).
Qed.

(** ** The effect of a program that writes files *)

Lemma effect_refl (w : world) : effect [] w w.
Proof.
  repeat split. exists EmptyString. now rewrite append_nil_r.
Qed.

Lemma effect_trans (a b : list (string * string)) (w w1 w2 : world) :
  effect a w w1 -> effect b w1 w2 -> effect (a ++ b) w w2.
Proof.
  intros (Hf1 & Hw1 & t1 & Ht1) (Hf2 & Hw2 & t2 & Ht2). repeat split.
  - now rewrite write_all_app, <- Hf1.
  - congruence.
  - exists (t1 +:+ t2). now rewrite Ht2, Ht1, append_assoc.
Qed.

Lemma performs_ret (w : world) : performs (ret tt) [] w.
Proof. exists w. split; [reflexivity | apply effect_refl]. Qed.

Lemma performs_print (s : string) (w : world) : performs (print s) [] w.
Proof.
  eexists. split; [reflexivity|]. repeat split.
  now exists (s +:+ Py.NL).
Qed.

Lemma performs_write_file (f c : string) (w : world) :
  writable w f = true -> performs (write_file f c) [(f, c)] w.
Proof.
  intros Hw. unfold performs, write_file. rewrite Hw.
  eexists. split; [reflexivity|]. repeat split.
  exists EmptyString. cbn [stdout]. now rewrite append_nil_r.
Qed.

Lemma performs_bind (m k : IO unit) (a b : list (string * string)) (w : world) :
  performs m a w ->
  (forall w1, effect a w w1 -> performs k b w1) ->
  performs (m ;; k)%io (a ++ b) w.
Proof.
  intros (w1 & Hm & He1) Hk. destruct (Hk w1 He1) as (w2 & Hk2 & He2).
  exists w2. split; [|now apply effect_trans with w1].
  unfold bind. now rewrite Hm.
Qed.

Lemma performs_for_each {A} (l : list A) (body : A -> IO unit)
    (g : A -> list (string * string)) (w : world) :
  (forall x w1, In x l -> writable w1 = writable w -> performs (body x) (g x) w1) ->
  performs (for_each l body) (flat_map g l) w.
Proof.
  revert w. induction l as [|x l IH]; intros w Hb; [apply performs_ret|].
  cbn [for_each flat_map]. apply performs_bind.
  - apply Hb; [now left | reflexivity].
  - intros w1 (_ & Hw1 & _). apply IH. intros y w2 Hy Hw2.
    apply Hb; [now right | congruence].
Qed.

Lemma emitted_flat_map (T : table) :
  emitted T =
  flat_map (fun item : string * network =>
              flat_map (fun tx => [(filename (fst item) tx,
                                    Json.dumps 2 (transaction (snd item) tx))])
                (transactions (snd item))) T.
Proof.
  unfold emitted, records. induction T as [|[k nd] T IH]; [reflexivity|].
  cbn [flat_map fst snd]. rewrite map_app, IH. f_equal.
  induction (transactions nd) as [|tx txs IHt]; [reflexivity|].
  cbn [map flat_map app]. now rewrite IHt.
Qed.

(** The file emitter, started where it may open its files, returns; the
    files are then as its writes leave them, and nothing else changed but
    standard output, which grew. *)
Lemma generate_tx_json_over_performs (T : table) (w : world) :
  can_emit T w -> performs (generate_tx_json_over T) (emitted T) w.
Proof.
  unfold can_emit. rewrite emitted_flat_map. intros Hcan.
  unfold generate_tx_json_over. apply performs_for_each.
  intros [k nd] w1 Hin Hw1. cbn [fst snd].
  change (flat_map _ (transactions nd))
    with ([] ++ [] ++ [] ++
          flat_map (fun tx => [(filename k tx, Json.dumps 2 (transaction nd tx))])
            (transactions nd)).
  apply performs_bind; [apply performs_print|]. intros w2 (_ & Hw2 & _).
  apply performs_bind; [apply performs_print|]. intros w3 (_ & Hw3 & _).
  apply performs_bind; [apply performs_print|]. intros w4 (_ & Hw4 & _).
  apply performs_for_each. intros tx w5 Htx Hw5.
  change [(filename k tx, Json.dumps 2 (transaction nd tx))]
    with ([(filename k tx, Json.dumps 2 (transaction nd tx))] ++ [] ++ [] ++ []).
  apply performs_bind.
  { apply performs_write_file.
    replace (writable w5) with (writable w) by congruence.
    rewrite List.Forall_forall in Hcan. apply Hcan.
    apply in_map_iff. exists (filename k tx, Json.dumps 2 (transaction nd tx)).
    split; [reflexivity|].
    apply in_flat_map. exists (k, nd). split; [exact Hin|].
    apply in_flat_map. exists tx. split; [exact Htx | now left]. }
  intros w6 _.
  apply performs_bind; [apply performs_print|]. intros w7 _.
  apply performs_bind; [apply performs_print|]. intros w8 _.
  apply performs_print.
Qed.

(** ** The file emitter on [TRANSACTIONS] *)

Lemma generate_tx_json_run (w : world) :
  can_emit TRANSACTIONS w ->
  exists w', generate_tx_json w = Returned tt w'
             /\ fs w' = write_all (emitted TRANSACTIONS) (fs w)
             /\ writable w' = writable w.
Proof.
  intros Hcan.
  destruct (generate_tx_json_over_performs TRANSACTIONS w Hcan)
    as (w' & Hrun & Hfs & Hw & _).
  now exists w'.
Qed.

Lemma can_emit_blank : can_emit TRANSACTIONS blank.
Proof. apply List.Forall_forall. reflexivity. Qed.

Lemma emitted_names_NoDup : NoDup (map fst (emitted TRANSACTIONS)).
Proof. apply (bool_decide_unpack _). vm_compute. exact I. Qed.

Lemma in_emitted (k : string) (nd : network) (tx : tx_entry) (T : table) :
  In (k, nd, tx) (records T) ->
  In (filename k tx, Json.dumps 2 (transaction nd tx)) (emitted T).
Proof.
  intros Hin. unfold emitted. apply in_map_iff. now exists (k, nd, tx).
Qed.

Lemma emitted_lookup (k : string) (nd : network) (tx : tx_entry)
    (m : gmap string string) :
  In (k, nd, tx) (records TRANSACTIONS) ->
  write_all (emitted TRANSACTIONS) m !! filename k tx
  = Some (Json.dumps 2 (transaction nd tx)).
Proof.
  intros Hin. rewrite lookup_write_all.
  rewrite (last_write_NoDup _ _ (Json.dumps 2 (transaction nd tx)));
    [reflexivity | apply emitted_names_NoDup | now apply in_emitted].
Qed.

(** Case analysis on the twelve records. *)
Ltac each_record H :=
  cbv [records TRANSACTIONS flat_map map app transactions] in H;
  repeat (destruct H as [H|H]; [injection H as <- <- <- | ]);
  [ .. | destruct H ].

(** What [loads] makes of the file of a record. *)
Lemma loads_emitted (k : string) (nd : network) (tx : tx_entry) :
  In (k, nd, tx) (records TRANSACTIONS) ->
  Json.loads (Json.dumps 2 (transaction nd tx)) = Some (transaction nd tx).
Proof. intros Hin. each_record Hin; vm_compute; reflexivity. Qed.

(** C1.  The record of network key [base] and token [USDC]: after a run of
    the file emitter there is a file named [tx_base_usdc.json], written for
    that record, and its content parsed as JSON is the object with [to] the
    contract address, [value] the string [0x0], [data] the calldata of the
    record and [chainId] 8453. *)
Theorem base_usdc_file (w : world) :
  can_emit TRANSACTIONS w ->
  exists w' content,
    generate_tx_json w = Returned tt w'
    /\ In ("tx_base_usdc.json", content) (emitted TRANSACTIONS)
    /\ fs w' !! "tx_base_usdc.json" = Some content
    /\ Json.loads content =
       Some (Json.Obj
               [ ("to", Json.Str "0x8B173c2E4C84b4bdD8c656F3d47Bc4259594Bd48");
                 ("value", Json.Str "0x0");
                 ("data", Json.Str "0xeb0835bf000000000000000000000000833589fcd6edb6e08f4c7c32d4f71b54bda02913");
                 ("chainId", Json.Int 8453) ]).
Proof.
  intros Hcan. destruct (generate_tx_json_run w Hcan) as (w' & Hrun & Hfs & _).
  pose (nd := {| chainId := 8453; name := "Base"; transactions := [] |}).
  pose (tx := {| token := "USDC";
                 data := "0xeb0835bf000000000000000000000000833589fcd6edb6e08f4c7c32d4f71b54bda02913" |}).
  exists w', (Json.dumps 2 (transaction nd tx)).
  split; [exact Hrun|]. split; [|split].
  - vm_compute. do 4 right. now left.
  - rewrite Hfs, lookup_write_all.
    rewrite (last_write_NoDup _ _ (Json.dumps 2 (transaction nd tx)));
      [reflexivity | apply emitted_names_NoDup |].
    vm_compute. do 4 right. now left.
  - vm_compute. reflexivity.
Qed.

Lemma base_usdc_file_witness :
  exists w' content,
    generate_tx_json blank = Returned tt w'
    /\ In ("tx_base_usdc.json", content) (emitted TRANSACTIONS)
    /\ fs w' !! "tx_base_usdc.json" = Some content
    /\ Json.loads content =
       Some (Json.Obj
               [ ("to", Json.Str "0x8B173c2E4C84b4bdD8c656F3d47Bc4259594Bd48");
                 ("value", Json.Str "0x0");
                 ("data", Json.Str "0xeb0835bf000000000000000000000000833589fcd6edb6e08f4c7c32d4f71b54bda02913");
                 ("chainId", Json.Int 8453) ]).
Proof.
  apply (base_usdc_file blank).
  apply List.Forall_forall. intros f _. reflexivity.
Defined.

(** C2.  For every record, the file the emitter writes for it holds a JSON
    object with exactly the four keys [to], [value], [data], [chainId], in
    this order: the constant contract address, the string [0x0], the
    calldata of the record and the chain id of its network, an integer. *)
Theorem emitted_json_fields (k : string) (nd : network) (tx : tx_entry) (w : world) :
  In (k, nd, tx) (records TRANSACTIONS) ->
  can_emit TRANSACTIONS w ->
  exists w' content,
    generate_tx_json w = Returned tt w'
    /\ fs w' !! filename k tx = Some content
    /\ Json.loads content =
       Some (Json.Obj
               [ ("to", Json.Str "0x8B173c2E4C84b4bdD8c656F3d47Bc4259594Bd48");
                 ("value", Json.Str "0x0");
                 ("data", Json.Str (data tx));
                 ("chainId", Json.Int (chainId nd)) ]).
Proof.
  intros Hin Hcan. destruct (generate_tx_json_run w Hcan) as (w' & Hrun & Hfs & _).
  exists w', (Json.dumps 2 (transaction nd tx)). split; [exact Hrun|]. split.
  - rewrite Hfs. now apply emitted_lookup.
  - exact (loads_emitted k nd tx Hin).
Qed.

(** C4.  For every record, the file written for it is named
    [tx_<network key>_<token symbol in lower case>.json]; and the emitter
    touches no file that is not so named for some record. *)
Theorem filename_convention (w : world) :
  can_emit TRANSACTIONS w ->
  exists w',
    generate_tx_json w = Returned tt w'
    /\ (forall k nd tx,
          In (k, nd, tx) (records TRANSACTIONS) ->
          fs w' !! ("tx_" +:+ k +:+ "_" +:+ Py.lower (token tx) +:+ ".json")
          = Some (Json.dumps 2 (transaction nd tx)))
    /\ (forall f,
          (forall k nd tx,
             In (k, nd, tx) (records TRANSACTIONS) ->
             f <> "tx_" +:+ k +:+ "_" +:+ Py.lower (token tx) +:+ ".json") ->
          fs w' !! f = fs w !! f).
Proof.
  intros Hcan. destruct (generate_tx_json_run w Hcan) as (w' & Hrun & Hfs & _).
  exists w'. split; [exact Hrun|]. split.
  - intros k nd tx Hin. rewrite Hfs. exact (emitted_lookup k nd tx _ Hin).
  - intros f Hf. rewrite Hfs, lookup_write_all, last_write_None; [reflexivity|].
    intros Hin. apply in_map_iff in Hin as ([f' c] & Heq & Hin).
    cbn [fst] in Heq. subst f'. unfold emitted in Hin.
    apply in_map_iff in Hin as ([[k nd] tx] & Heq & Hin).
    injection Heq as Heq _. exact (Hf k nd tx Hin (eq_sym Heq)).
Qed.

Lemma emitted_json_fields_witness :
  exists w' content,
    generate_tx_json blank = Returned tt w'
    /\ fs w' !! "tx_optimism_usdt.json" = Some content
    /\ Json.loads content =
       Some (Json.Obj
               [ ("to", Json.Str "0x8B173c2E4C84b4bdD8c656F3d47Bc4259594Bd48");
                 ("value", Json.Str "0x0");
                 ("data", Json.Str "0xeb0835bf00000000000000000000000094b008aa00579c1307b0ef2c499ad98a8ce58e58");
                 ("chainId", Json.Int 10) ]).
Proof.
  apply (emitted_json_fields "optimism"
           {| chainId := 10; name := "Optimism";
              transactions :=
                [ {| token := "ETH";
                     data := "0xeb0835bf0000000000000000000000000000000000000000000000000000000000000000" |};
                  {| token := "USDC";
                     data := "0xeb0835bf0000000000000000000000000b2c639c533813f4aa9d7837caf62653d097ff85" |};
                  {| token := "USDT";
                     data := "0xeb0835bf00000000000000000000000094b008aa00579c1307b0ef2c499ad98a8ce58e58" |} ] |}
           {| token := "USDT";
              data := "0xeb0835bf00000000000000000000000094b008aa00579c1307b0ef2c499ad98a8ce58e58" |}
           blank).
  - simpl. do 8 right. left. reflexivity.
  - apply List.Forall_forall. intros f _. reflexivity.
Defined.

Lemma filename_convention_witness :
  exists w',
    generate_tx_json blank = Returned tt w'
    /\ (forall k nd tx,
          In (k, nd, tx) (records TRANSACTIONS) ->
          fs w' !! ("tx_" +:+ k +:+ "_" +:+ Py.lower (token tx) +:+ ".json")
          = Some (Json.dumps 2 (transaction nd tx)))
    /\ (forall f,
          (forall k nd tx,
             In (k, nd, tx) (records TRANSACTIONS) ->
             f <> "tx_" +:+ k +:+ "_" +:+ Py.lower (token tx) +:+ ".json") ->
          fs w' !! f = fs blank !! f).
Proof.
  apply (filename_convention blank).
  apply List.Forall_forall. intros f _. reflexivity.
Defined.

(** C5.  Running the file emitter twice: both runs return, the second
    leaves every file as the first left it, and each emitted file name holds
    the same content after the second run as after the first. *)
Theorem generate_tx_json_idempotent (w : world) :
  can_emit TRANSACTIONS w ->
  exists w1 w2,
    generate_tx_json w = Returned tt w1
    /\ generate_tx_json w1 = Returned tt w2
    /\ fs w2 = fs w1
    /\ forall f, In f (map fst (emitted TRANSACTIONS)) ->
         exists content, fs w1 !! f = Some content /\ fs w2 !! f = Some content.
Proof.
  intros Hcan.
  destruct (generate_tx_json_run w Hcan) as (w1 & Hrun1 & Hfs1 & Hw1).
  assert (Hcan1 : can_emit TRANSACTIONS w1) by (unfold can_emit; now rewrite Hw1).
  destruct (generate_tx_json_run w1 Hcan1) as (w2 & Hrun2 & Hfs2 & _).
  assert (Hsame : fs w2 = fs w1).
  { rewrite Hfs2, Hfs1. apply write_all_idempotent. }
  exists w1, w2. repeat split; try assumption.
  intros f Hin. rewrite Hsame. apply in_map_iff in Hin as ([f' c] & Heq & Hin).
  cbn [fst] in Heq. subst f'. exists c.
  assert (Hlook : fs w1 !! f = Some c).
  { rewrite Hfs1, lookup_write_all.
    now rewrite (last_write_NoDup _ _ c emitted_names_NoDup Hin). }
  now split.
Qed.

Lemma generate_tx_json_idempotent_witness :
  exists w1 w2,
    generate_tx_json blank = Returned tt w1
    /\ generate_tx_json w1 = Returned tt w2
    /\ fs w2 = fs w1
    /\ forall f, In f (map fst (emitted TRANSACTIONS)) ->
         exists content, fs w1 !! f = Some content /\ fs w2 !! f = Some content.
Proof.
  apply (generate_tx_json_idempotent blank).
  apply List.Forall_forall. intros f _. reflexivity.
Defined.

(** C6.  Every file the emitter writes parses as JSON, and serialising the
    parsed object again with the same settings (indent 2, keys in the order
    of the object) gives back the content of the file, byte for byte. *)
Theorem emitted_json_round_trip (w : world) :
  can_emit TRANSACTIONS w ->
  exists w',
    generate_tx_json w = Returned tt w'
    /\ forall f, In f (map fst (emitted TRANSACTIONS)) ->
         exists content v,
           fs w' !! f = Some content
           /\ Json.loads content = Some v
           /\ Json.dumps 2 v = content.
Proof.
  intros Hcan. destruct (generate_tx_json_run w Hcan) as (w' & Hrun & Hfs & _).
  exists w'. split; [exact Hrun|]. intros f Hin.
  apply in_map_iff in Hin as ([f' c] & Heq & Hin). cbn [fst] in Heq. subst f'.
  assert (Hlook : fs w' !! f = Some c).
  { rewrite Hfs, lookup_write_all.
    now rewrite (last_write_NoDup _ _ c emitted_names_NoDup Hin). }
  unfold emitted in Hin. apply in_map_iff in Hin as ([[k nd] tx] & Heq & Hin).
  injection Heq as _ <-.
  exists (Json.dumps 2 (transaction nd tx)), (transaction nd tx).
  split; [exact Hlook|]. split; [|reflexivity].
  exact (loads_emitted k nd tx Hin).
Qed.

Lemma emitted_json_round_trip_witness :
  exists w',
    generate_tx_json blank = Returned tt w'
    /\ forall f, In f (map fst (emitted TRANSACTIONS)) ->
         exists content v,
           fs w' !! f = Some content
           /\ Json.loads content = Some v
           /\ Json.dumps 2 v = content.
Proof.
  apply (emitted_json_round_trip blank).
  apply List.Forall_forall. intros f _. reflexivity.
Defined.

(** C9.  The table has twelve records, the file names generated for them
    are pairwise distinct, and so after a run every record finds under its
    own file name the content written for it: no write of the run replaced
    the file of another record. *)
Theorem filenames_distinct (w : world) :
  can_emit TRANSACTIONS w ->
  length (records TRANSACTIONS) = 12%nat
  /\ NoDup (map (fun '(k, _, tx) => filename k tx) (records TRANSACTIONS))
  /\ (forall k1 nd1 tx1 k2 nd2 tx2,
        In (k1, nd1, tx1) (records TRANSACTIONS) ->
        In (k2, nd2, tx2) (records TRANSACTIONS) ->
        (k1, token tx1) <> (k2, token tx2) ->
        filename k1 tx1 <> filename k2 tx2)
  /\ exists w',
       generate_tx_json w = Returned tt w'
       /\ forall k nd tx,
            In (k, nd, tx) (records TRANSACTIONS) ->
            fs w' !! filename k tx = Some (Json.dumps 2 (transaction nd tx)).
Proof.
  intros Hcan. split; [reflexivity|]. split; [|split].
  - apply (bool_decide_unpack _). vm_compute. exact I.
  - intros k1 nd1 tx1 k2 nd2 tx2 H1 H2 Hne Heq. apply Hne.
    each_record H1; each_record H2;
      first [ reflexivity | exfalso; vm_compute in Heq; discriminate Heq ].
  - destruct (generate_tx_json_run w Hcan) as (w' & Hrun & Hfs & _).
    exists w'. split; [exact Hrun|]. intros k nd tx Hin.
    rewrite Hfs. now apply emitted_lookup.
Qed.

Lemma filenames_distinct_witness :
  length (records TRANSACTIONS) = 12%nat
  /\ NoDup (map (fun '(k, _, tx) => filename k tx) (records TRANSACTIONS))
  /\ (forall k1 nd1 tx1 k2 nd2 tx2,
        In (k1, nd1, tx1) (records TRANSACTIONS) ->
        In (k2, nd2, tx2) (records TRANSACTIONS) ->
        (k1, token tx1) <> (k2, token tx2) ->
        filename k1 tx1 <> filename k2 tx2)
  /\ exists w',
       generate_tx_json blank = Returned tt w'
       /\ forall k nd tx,
            In (k, nd, tx) (records TRANSACTIONS) ->
            fs w' !! filename k tx = Some (Json.dumps 2 (transaction nd tx)).
Proof.
  apply (filenames_distinct blank).
  apply List.Forall_forall. intros f _. reflexivity.
Defined.

(** ** The table *)

(** C7.  Every calldata string of the table has 74 characters: [0x], the
    selector [eb0835bf], and 64 hex digits, one address padded to 32 bytes.
    So all of them have the same length and the same selector. *)
Theorem calldata_shape (k : string) (nd : network) (tx : tx_entry) :
  In (k, nd, tx) (records TRANSACTIONS) ->
  String.length (data tx) = 74%nat
  /\ exists argument,
       data tx = "0x" +:+ "eb0835bf" +:+ argument
       /\ String.length argument = 64%nat
       /\ all_chars is_hex_digit argument = true.
Proof.
  intros Hin. split.
  - each_record Hin; reflexivity.
  - exists (substring 10 64 (data tx)).
    each_record Hin; vm_compute; repeat split; reflexivity.
Qed.

Lemma calldata_shape_witness :
  String.length "0xeb0835bf000000000000000000000000c2132d05d31c914a87c6611c10748aeb04b58e8f" = 74%nat
  /\ exists argument,
       "0xeb0835bf000000000000000000000000c2132d05d31c914a87c6611c10748aeb04b58e8f"
       = "0x" +:+ "eb0835bf" +:+ argument
       /\ String.length argument = 64%nat
       /\ all_chars is_hex_digit argument = true.
Proof.
  apply (calldata_shape "polygon"
           {| chainId := 137; name := "Polygon";
              transactions :=
                [ {| token := "ETH";
                     data := "0xeb0835bf0000000000000000000000000000000000000000000000000000000000000000" |};
                  {| token := "USDC";
                     data := "0xeb0835bf0000000000000000000000002791bca1f2de4661ed88a30c99a7a9449aa84174" |};
                  {| token := "USDT";
                     data := "0xeb0835bf000000000000000000000000c2132d05d31c914a87c6611c10748aeb04b58e8f" |} ] |}
           {| token := "USDT";
              data := "0xeb0835bf000000000000000000000000c2132d05d31c914a87c6611c10748aeb04b58e8f" |}).
  simpl. do 11 right. left. reflexivity.
Defined.

(** The ETH records of Arbitrum and of Base are two records of different
    networks with one and the same calldata: the invariant of C3 as it is
    worded, with calldata unique per (network, token) pair, does not hold of
    the table. *)
Lemma eth_calldata_shared :
  ~ (uniform_recipient_and_value TRANSACTIONS /\ calldata_unique TRANSACTIONS).
Proof.
  intros [_ Huniq].
  pose (eth := {| token := "ETH";
                  data := "0xeb0835bf0000000000000000000000000000000000000000000000000000000000000000" |}).
  pose (arbitrum := snd (nth 0 TRANSACTIONS (EmptyString, Build_network 0 EmptyString []))).
  pose (base := snd (nth 1 TRANSACTIONS (EmptyString, Build_network 0 EmptyString []))).
  apply (Huniq "arbitrum" arbitrum eth "base" base eth).
  - simpl. left. reflexivity.
  - simpl. do 3 right. left. reflexivity.
  - discriminate.
  - reflexivity.
Qed.

(** C3, amended.  All records have the same recipient, the contract
    address, and the same value, zero.  Two records of different (network
    key, token symbol) carry the same calldata only when both are ETH
    records of different networks.  The ETH records are four, one for each
    of the four networks, and all carry the same calldata: the selector
    followed by the zero address.  Within one network the calldata tells
    the tokens apart, and a record of another token, USDC or USDT, shares
    its calldata with no other record. *)
Theorem table_invariant (k1 : string) (nd1 : network) (tx1 : tx_entry)
    (k2 : string) (nd2 : network) (tx2 : tx_entry) :
  In (k1, nd1, tx1) (records TRANSACTIONS) ->
  In (k2, nd2, tx2) (records TRANSACTIONS) ->
  (Json.get "to" (transaction nd1 tx1) = Some (Json.Str CONTRACT_ADDRESS)
   /\ Json.get "to" (transaction nd2 tx2) = Some (Json.Str CONTRACT_ADDRESS))
  /\ (Json.get "value" (transaction nd1 tx1) = Some (Json.Str "0x0")
      /\ Json.get "value" (transaction nd2 tx2) = Some (Json.Str "0x0"))
  /\ ((k1, token tx1) <> (k2, token tx2) ->
      data tx1 = data tx2 ->
      token tx1 = "ETH" /\ token tx2 = "ETH" /\ k1 <> k2)
  /\ (token tx1 = "ETH" -> token tx2 = "ETH" -> data tx1 = data tx2)
  /\ (token tx1 = "ETH" -> data tx1 = zero_address_calldata)
  /\ (map fst TRANSACTIONS = ["arbitrum"; "base"; "optimism"; "polygon"]
      /\ map (fun r => fst (fst r)) (eth_records TRANSACTIONS) = map fst TRANSACTIONS
      /\ length (eth_records TRANSACTIONS) = 4%nat
      /\ Forall (fun r => data (snd r) = zero_address_calldata)
           (eth_records TRANSACTIONS))
  /\ (k1 = k2 -> data tx1 = data tx2 -> token tx1 = token tx2)
  /\ (token tx1 = "ETH" \/ token tx1 = "USDC" \/ token tx1 = "USDT")
  /\ (token tx1 <> "ETH" -> data tx1 = data tx2 ->
      (k1, token tx1) = (k2, token tx2)).
Proof.
  intros H1 H2.
  assert (Hshared : (k1, token tx1) <> (k2, token tx2) ->
                    data tx1 = data tx2 ->
                    token tx1 = "ETH" /\ token tx2 = "ETH" /\ k1 <> k2).
  { intros Hne Heq.
    each_record H1; each_record H2;
      first [ exfalso; apply Hne; reflexivity
            | exfalso; vm_compute in Heq; discriminate Heq
            | repeat split; discriminate ]. }
  split; [now split|]. split; [now split|]. split; [exact Hshared|].
  split; [|split; [|split; [|split; [|split]]]].
  - intros E1 E2.
    each_record H1; each_record H2;
      first [ reflexivity
            | exfalso; vm_compute in E1; discriminate E1
            | exfalso; vm_compute in E2; discriminate E2 ].
  - intros E1.
    each_record H1;
      first [ reflexivity | exfalso; vm_compute in E1; discriminate E1 ].
  - split; [reflexivity|]. split; [reflexivity|]. split; [reflexivity|].
    repeat (apply List.Forall_cons; [reflexivity|]). apply List.Forall_nil.
  - intros Hk Heq.
    destruct (string_dec (token tx1) (token tx2)) as [Ht|Ht]; [exact Ht|].
    assert (Hne : (k1, token tx1) <> (k2, token tx2)) by congruence.
    destruct (Hshared Hne Heq) as (_ & _ & Hkk). now destruct Hkk.
  - each_record H1; auto.
  - intros Ht Heq.
    destruct (string_dec k1 k2) as [Hk|Hk];
      [destruct (string_dec (token tx1) (token tx2)) as [Hs|Hs]|].
    + now rewrite Hk, Hs.
    + assert (Hne : (k1, token tx1) <> (k2, token tx2)) by congruence.
      destruct (Hshared Hne Heq) as (E1 & _). now destruct Ht.
    + assert (Hne : (k1, token tx1) <> (k2, token tx2)) by congruence.
      destruct (Hshared Hne Heq) as (E1 & _). now destruct Ht.
Qed.

Lemma table_invariant_witness :
  (Json.get "to" (transaction (Build_network 42161 "Arbitrum One" [])
                    (Build_tx_entry "ETH" "0xeb0835bf0000000000000000000000000000000000000000000000000000000000000000"))
   = Some (Json.Str CONTRACT_ADDRESS)
   /\ Json.get "to" (transaction (Build_network 8453 "Base" [])
                       (Build_tx_entry "ETH" "0xeb0835bf0000000000000000000000000000000000000000000000000000000000000000"))
      = Some (Json.Str CONTRACT_ADDRESS))
  /\ (("arbitrum", "ETH") <> ("base", "ETH") ->
      "0xeb0835bf0000000000000000000000000000000000000000000000000000000000000000"
      = "0xeb0835bf0000000000000000000000000000000000000000000000000000000000000000" ->
      "ETH" = "ETH" /\ "ETH" = "ETH" /\ "arbitrum" <> "base")
  /\ ("ETH" = "ETH" ->
      "0xeb0835bf0000000000000000000000000000000000000000000000000000000000000000"
      = zero_address_calldata)
  /\ length (eth_records TRANSACTIONS) = 4%nat.
Proof.
  pose (eth := {| token := "ETH";
                  data := "0xeb0835bf0000000000000000000000000000000000000000000000000000000000000000" |}).
  pose (arbitrum := snd (nth 0 TRANSACTIONS (EmptyString, Build_network 0 EmptyString []))).
  pose (base := snd (nth 1 TRANSACTIONS (EmptyString, Build_network 0 EmptyString []))).
  assert (H1 : In ("arbitrum", arbitrum, eth) (records TRANSACTIONS))
    by (simpl; left; reflexivity).
  assert (H2 : In ("base", base, eth) (records TRANSACTIONS))
    by (simpl; do 3 right; left; reflexivity).
  destruct (table_invariant "arbitrum" arbitrum eth "base" base eth H1 H2)
    as (Hto & _ & Hshared & _ & Hzero & (_ & _ & Hfour & _) & _).
  split; [exact Hto|]. split; [exact Hshared|]. split; [exact Hzero | exact Hfour].
Defined.

(** ** Printed text, line by line *)

Ltac printed_step :=
  repeat first
    [ rewrite printed_print
    | rewrite printed_bind by print_only
    | rewrite printed_for_each by (intros ?; print_only) ].

Lemma lines_nonempty (s : string) : lines s <> [].
Proof.
  destruct s as [|c s]; cbn [lines]; [discriminate|].
  destruct (c =? Py.nl)%char; [discriminate|].
  destruct (lines s); discriminate.
Qed.

Lemma lines_app_nl (a b : string) :
  lines (a +:+ Py.NL +:+ b) = lines a ++ lines b.
Proof.
  induction a as [|c a IH]; [reflexivity|].
  rewrite append_cons. cbn [lines]. rewrite IH.
  destruct (c =? Py.nl)%char; [reflexivity|].
  destruct (lines a) as [|l ls] eqn:E; [now destruct (lines_nonempty a)|].
  reflexivity.
Qed.

Lemma code_lines_app_nl (mark a b : string) :
  code_lines mark (a +:+ Py.NL +:+ b) = code_lines mark a ++ code_lines mark b.
Proof. unfold code_lines. rewrite lines_app_nl. apply List.filter_app. Qed.

Lemma no_newline_all_chars (s : string) :
  all_chars not_newline s = true -> no_newline s.
Proof.
  unfold no_newline. induction s as [|c s IH]; [reflexivity|].
  cbn [all_chars lines]. intros H. apply andb_true_iff in H as [Hc Hs].
  unfold not_newline in Hc. apply negb_true_iff in Hc. rewrite Hc.
  now rewrite (IH Hs).
Qed.

Lemma all_chars_no_newline (s : string) :
  no_newline s -> all_chars not_newline s = true.
Proof.
  unfold no_newline. induction s as [|c s IH]; [reflexivity|].
  cbn [all_chars lines]. unfold not_newline.
  destruct (c =? Py.nl)%char; [discriminate|].
  destruct (lines s) as [|l ls] eqn:E; [now destruct (lines_nonempty s)|].
  intros H. injection H as -> ->. exact (IH eq_refl).
Qed.

Lemma all_chars_app p (a b : string) :
  all_chars p (a +:+ b) = all_chars p a && all_chars p b.
Proof.
  induction a as [|c a IH]; [reflexivity|].
  rewrite append_cons. cbn [all_chars]. now rewrite IH, andb_assoc.
Qed.

Lemma no_newline_app (a b : string) :
  no_newline a -> no_newline b -> no_newline (a +:+ b).
Proof.
  intros Ha Hb. apply no_newline_all_chars. rewrite all_chars_app.
  now rewrite (all_chars_no_newline a Ha), (all_chars_no_newline b Hb).
Qed.

Lemma no_newline_uint (d : Decimal.uint) :
  all_chars not_newline (NilEmpty.string_of_uint d) = true.
Proof. induction d; cbn [NilEmpty.string_of_uint all_chars]; auto. Qed.

Lemma no_newline_str (n : Z) : no_newline (Py.str n).
Proof.
  apply no_newline_all_chars. unfold Py.str.
  destruct (Z.to_int n) as [d|d]; cbn [NilZero.string_of_int].
  - unfold NilZero.string_of_uint. destruct d; try reflexivity; apply no_newline_uint.
  - cbn [all_chars]. unfold NilZero.string_of_uint.
    destruct d; try reflexivity; apply no_newline_uint.
Qed.

Section CodeLines.
Variable mark : string.

Lemma code_eq_nil : code_eq mark EmptyString EmptyString.
Proof. intros r r' H. exact H. Qed.

Lemma code_eq_line (l l' : string) :
  code_lines mark l = code_lines mark l' ->
  code_eq mark (l +:+ Py.NL) (l' +:+ Py.NL).
Proof.
  intros Hl r r' Hr. rewrite !append_assoc, !code_lines_app_nl.
  now rewrite Hl, Hr.
Qed.

Lemma code_eq_app (a a' b b' : string) :
  code_eq mark a a' -> code_eq mark b b' -> code_eq mark (a +:+ b) (a' +:+ b').
Proof.
  intros Ha Hb r r' Hr. rewrite !append_assoc. apply Ha, Hb, Hr.
Qed.

Lemma code_eq_cat_map {A} (g g' : A -> string) (l : list A) :
  (forall x, In x l -> code_eq mark (g x) (g' x)) ->
  code_eq mark (cat (map g l)) (cat (map g' l)).
Proof.
  induction l as [|x l IH]; intros H; [apply code_eq_nil|].
  cbn [map cat]. apply code_eq_app.
  - apply H. now left.
  - apply IH. intros y Hy. apply H. now right.
Qed.

Lemma code_eq_code_lines (a a' : string) :
  code_eq mark a a' -> code_lines mark a = code_lines mark a'.
Proof.
  intros H. rewrite <- (append_nil_r a), <- (append_nil_r a'). now apply H.
Qed.

End CodeLines.

Ltac code_eq_same :=
  repeat first
    [ apply code_eq_line; reflexivity
    | apply code_eq_app ].

Lemma chain_id_comment (nm s s' : string) :
  no_newline nm -> no_newline s -> no_newline s' ->
  code_lines "//" (Py.NL +:+ "// " +:+ nm +:+ " (Chain ID: " +:+ s +:+ ")")
  = code_lines "//" (Py.NL +:+ "// " +:+ nm +:+ " (Chain ID: " +:+ s' +:+ ")").
Proof.
  intros Hn Hs Hs'.
  assert (H : forall t, no_newline t ->
            code_lines "//" (Py.NL +:+ "// " +:+ nm +:+ " (Chain ID: " +:+ t +:+ ")")
            = [EmptyString]).
  { intros t Ht.
    change (Py.NL +:+ "// " +:+ nm +:+ " (Chain ID: " +:+ t +:+ ")")
      with (EmptyString +:+ Py.NL +:+ "// " +:+ nm +:+ " (Chain ID: " +:+ t +:+ ")").
    rewrite code_lines_app_nl. unfold code_lines at 2.
    assert (Hc : no_newline ("// " +:+ nm +:+ " (Chain ID: " +:+ t +:+ ")")).
    { repeat apply no_newline_app; try assumption; reflexivity. }
    rewrite Hc. reflexivity. }
  now rewrite (H s Hs), (H s' Hs').
Qed.

Ltac under_prefix :=
  repeat (apply (f_equal2 String.append); [reflexivity|]);
  apply (f_equal cat); apply map_ext.

Lemma generate_curl_commands_over_printed (T : table) :
  printed (generate_curl_commands_over T) =
  banner "🔧 COMANDOS CURL PARA WALLETS QUE SUPORTAM API"
  +:+ cat (map (fun '(k, nd) =>
                  Py.NL +:+ "# " +:+ name nd +:+ Py.NL
                  +:+ cat (map (fun tx =>
                                  Py.NL +:+ "# Habilitar " +:+ token tx +:+ ":" +:+ Py.NL
                                  +:+ curl_post (curl_body tx) "YOUR_WALLET_API_ENDPOINT")
                             (transactions nd))) T).
Proof.
  unfold generate_curl_commands_over. printed_step.
  unfold banner. rewrite !append_assoc. under_prefix.
  intros [k nd]. printed_step.
  rewrite !append_assoc. under_prefix.
  intros tx. printed_step.
  unfold curl_post, curl_body. rewrite !append_assoc. reflexivity.
Qed.

Lemma curl_ignores_chain_ids (f : Z -> Z) (T : table) :
  printed (generate_curl_commands_over (with_chain_ids f T))
  = printed (generate_curl_commands_over T).
Proof.
  rewrite !generate_curl_commands_over_printed. unfold with_chain_ids.
  rewrite map_map. under_prefix. now intros [k nd].
Qed.

(** ** The print-only emitters on [TRANSACTIONS] *)

Lemma curl_body_loads (k : string) (nd : network) (tx : tx_entry) :
  In (k, nd, tx) (records TRANSACTIONS) ->
  Json.loads (curl_body tx)
  = Some (Json.Obj [ ("to", Json.Str CONTRACT_ADDRESS);
                     ("data", Json.Str (data tx));
                     ("value", Json.Str "0x0") ]).
Proof. intros Hin. each_record Hin; vm_compute; reflexivity. Qed.

(** C8.  The curl emitter returns from any world, leaves every file as it
    was and only adds text to standard output.  The text is the banner and
    then, network by network, a comment with the name of the network and,
    record by record, a comment and one [curl -X POST] command that posts to
    [YOUR_WALLET_API_ENDPOINT]; there are as many commands as records.  The
    body of the command of a record is a JSON object holding the contract
    address as [to], the calldata of the record as [data] and [0x0] as
    [value]. *)
Theorem curl_commands_post_each_record (k : string) (nd : network) (tx : tx_entry)
    (w : world) :
  In (k, nd, tx) (records TRANSACTIONS) ->
  exists w',
    generate_curl_commands w = Returned tt w'
    /\ fs w' = fs w
    /\ stdout w' = stdout w +:+ printed generate_curl_commands
    /\ printed generate_curl_commands =
       banner "🔧 COMANDOS CURL PARA WALLETS QUE SUPORTAM API"
       +:+ cat (map (fun '(_, network_data) =>
                       Py.NL +:+ "# " +:+ name network_data +:+ Py.NL
                       +:+ cat (map (fun tx' =>
                                       Py.NL +:+ "# Habilitar " +:+ token tx' +:+ ":" +:+ Py.NL
                                       +:+ curl_post (curl_body tx') "YOUR_WALLET_API_ENDPOINT")
                                  (transactions network_data)))
                  TRANSACTIONS)
    /\ occurrences "curl -X POST" (printed generate_curl_commands)
       = length (records TRANSACTIONS)
    /\ occurrences "YOUR_WALLET_API_ENDPOINT" (printed generate_curl_commands)
       = length (records TRANSACTIONS)
    /\ Json.loads (curl_body tx)
       = Some (Json.Obj [ ("to", Json.Str "0x8B173c2E4C84b4bdD8c656F3d47Bc4259594Bd48");
                          ("data", Json.Str (data tx));
                          ("value", Json.Str "0x0") ]).
Proof.
  intros Hin. exists (emit (printed generate_curl_commands) w).
  split; [apply generate_curl_commands_over_print_only|].
  split; [reflexivity|]. split; [reflexivity|].
  split; [apply generate_curl_commands_over_printed|].
  split; [vm_compute; reflexivity|]. split; [vm_compute; reflexivity|].
  exact (curl_body_loads k nd tx Hin).
Qed.

Lemma curl_commands_post_each_record_witness :
  exists w',
    generate_curl_commands blank = Returned tt w'
    /\ fs w' = fs blank
    /\ Json.loads
         (curl_body (Build_tx_entry "USDC" "0xeb0835bf000000000000000000000000af88d065e77c8cc2239327c5edb3a432268e5831"))
       = Some (Json.Obj [ ("to", Json.Str "0x8B173c2E4C84b4bdD8c656F3d47Bc4259594Bd48");
                          ("data", Json.Str "0xeb0835bf000000000000000000000000af88d065e77c8cc2239327c5edb3a432268e5831");
                          ("value", Json.Str "0x0") ]).
Proof.
  pose (usdc := {| token := "USDC";
                   data := "0xeb0835bf000000000000000000000000af88d065e77c8cc2239327c5edb3a432268e5831" |}).
  pose (arbitrum := snd (nth 0 TRANSACTIONS (EmptyString, Build_network 0 EmptyString []))).
  assert (Hin : In ("arbitrum", arbitrum, usdc) (records TRANSACTIONS))
    by (simpl; right; left; reflexivity).
  destruct (curl_commands_post_each_record "arbitrum" arbitrum usdc blank Hin)
    as (w' & Hrun & Hfs & _ & _ & _ & _ & Hbody).
  exists w'. split; [exact Hrun|]. split; [exact Hfs | exact Hbody].
Defined.

Lemma console_ignores_chain_ids (f : Z -> Z) (T : table) :
  Forall (fun item => no_newline (name (snd item))) T ->
  code_lines "//" (printed (generate_copy_paste_over (with_chain_ids f T)))
  = code_lines "//" (printed (generate_copy_paste_over T)).
Proof.
  intros Hnames. apply code_eq_code_lines.
  unfold generate_copy_paste_over. printed_step.
  unfold with_chain_ids. rewrite map_map.
  repeat (apply code_eq_app; [apply code_eq_line; reflexivity|]).
  apply code_eq_cat_map. intros [k nd] Hin. printed_step.
  cbn [chainId name transactions].
  rewrite List.Forall_forall in Hnames. specialize (Hnames _ Hin).
  cbn [snd] in Hnames.
  apply code_eq_app.
  { apply code_eq_line. apply chain_id_comment; auto using no_newline_str. }
  apply code_eq_app; [apply code_eq_line; reflexivity|].
  apply code_eq_cat_map. intros tx _. printed_step.
  code_eq_same.
Qed.

Lemma chain_id_in_header (k : string) (nd : network) :
  In (k, nd) TRANSACTIONS ->
  In ("// " +:+ name nd +:+ " (Chain ID: " +:+ Py.str (chainId nd) +:+ ")")
    (lines (printed generate_copy_paste)).
Proof.
  intros Hin. apply list_elem_of_In, (bool_decide_unpack _).
  cbv [TRANSACTIONS] in Hin.
  repeat (destruct Hin as [Hin|Hin]; [injection Hin as <- <- | ]);
    [ .. | destruct Hin ]; vm_compute; exact I.
Qed.

(** C10.  In what the console emitter prints, the chain id stands in a
    comment line, the header of its network, and nowhere else: with other
    chain ids in the table the lines that are not comments stay the same,
    and they are the banner and, record by record, a request that carries
    the contract address as [to], the calldata as [data] and [0x0] as
    [value].  What the curl emitter prints does not depend on the chain ids
    at all; its lines that are not comments are the banner and, record by
    record, the command with [to], [data] and [value]. *)
Theorem snippets_leave_out_chain_id (f : Z -> Z) (T : table) :
  Forall (fun item => no_newline (name (snd item))) T ->
  code_lines "//" (printed (generate_copy_paste_over (with_chain_ids f T)))
  = code_lines "//" (printed (generate_copy_paste_over T))
  /\ printed (generate_curl_commands_over (with_chain_ids f T))
     = printed (generate_curl_commands_over T)
  /\ nonblank (code_lines "//" (printed generate_copy_paste))
     = [ Py.repeat "=" 70;
         "📋 COMANDOS PARA COPIAR E COLAR NO CONSOLE";
         Py.repeat "=" 70 ]
       ++ flat_map (fun '(_, _, tx) => console_payload tx) (records TRANSACTIONS)
  /\ nonblank (code_lines "#" (printed generate_curl_commands))
     = [ Py.repeat "=" 70;
         "🔧 COMANDOS CURL PARA WALLETS QUE SUPORTAM API";
         Py.repeat "=" 70 ]
       ++ flat_map (fun '(_, _, tx) =>
                      nonblank (lines (curl_post (curl_body tx)
                                         "YOUR_WALLET_API_ENDPOINT")))
            (records TRANSACTIONS)
  /\ (forall k nd,
        In (k, nd) TRANSACTIONS ->
        In ("// " +:+ name nd +:+ " (Chain ID: " +:+ Py.str (chainId nd) +:+ ")")
          (lines (printed generate_copy_paste))).
Proof.
  intros Hnames.
  split; [now apply console_ignores_chain_ids|].
  split; [apply curl_ignores_chain_ids|].
  split; [vm_compute; reflexivity|]. split; [vm_compute; reflexivity|].
  exact chain_id_in_header.
Qed.

Lemma snippets_leave_out_chain_id_witness :
  code_lines "//" (printed (generate_copy_paste_over (with_chain_ids Z.succ TRANSACTIONS)))
  = code_lines "//" (printed (generate_copy_paste_over TRANSACTIONS))
  /\ printed (generate_curl_commands_over (with_chain_ids Z.succ TRANSACTIONS))
     = printed (generate_curl_commands_over TRANSACTIONS).
Proof.
  assert (Hnames : Forall (fun item => no_newline (name (snd item))) TRANSACTIONS).
  { repeat (apply List.Forall_cons; [reflexivity|]). apply List.Forall_nil. }
  destruct (snippets_leave_out_chain_id Z.succ TRANSACTIONS Hnames)
    as (Hconsole & Hcurl & _).
  split; [exact Hconsole | exact Hcurl].
Defined.

(** * Beyond the table: any table, any world *)

(** ** Writes that can fail *)

Lemma attempt_app (ok : string -> bool) (a b : list (string * string))
    (m : gmap string string) :
  attempt ok (a ++ b) m =
  match snd (attempt ok a m) with
  | None => attempt ok b (fst (attempt ok a m))
  | Some f => attempt ok a m
  end.
Proof.
  revert m. induction a as [|[f c] a IH]; intros m; [reflexivity|].
  cbn [app attempt]. destruct (ok f); [apply IH | reflexivity].
Qed.

Lemma attempt_all (ok : string -> bool) (ws : list (string * string))
    (m : gmap string string) :
  Forall (fun f => ok f = true) (map fst ws) ->
  attempt ok ws m = (write_all ws m, None).
Proof.
  revert m. induction ws as [|[f c] ws IH]; intros m Hok; [reflexivity|].
  cbn [map fst] in Hok. apply List.Forall_cons_iff in Hok as [Hf Hws].
  cbn [attempt]. rewrite Hf. now rewrite (IH _ Hws).
Qed.

Lemma attempt_stops (ok : string -> bool) (pre post : list (string * string))
    (f c : string) (m : gmap string string) :
  Forall (fun g => ok g = true) (map fst pre) ->
  ok f = false ->
  attempt ok (pre ++ (f, c) :: post) m = (write_all pre m, Some f).
Proof.
  intros Hpre Hf. rewrite attempt_app, (attempt_all ok pre m Hpre).
  cbn [fst snd attempt]. now rewrite Hf.
Qed.

Lemma tries_ret (w : world) : tries (ret tt) [] w.
Proof. now exists w. Qed.

Lemma tries_print (s : string) (w : world) : tries (print s) [] w.
Proof. eexists. split; [reflexivity|]. now split. Qed.

Lemma tries_write_file (f c : string) (w : world) :
  tries (write_file f c) [(f, c)] w.
Proof.
  unfold tries, write_file. cbn [attempt].
  destruct (writable w f); eexists; (split; [reflexivity|]); now split.
Qed.

Lemma tries_bind (m k : IO unit) (a b : list (string * string)) (w : world) :
  tries m a w ->
  (forall w1, writable w1 = writable w ->
              fs w1 = fst (attempt (writable w) a (fs w)) ->
              tries k b w1) ->
  tries (m ;; k)%io (a ++ b) w.
Proof.
  intros (w1 & Hm & Hfs1 & Hw1) Hk. unfold tries, bind.
  rewrite attempt_app, Hm.
  destruct (attempt (writable w) a (fs w)) as [m1 [f|]] eqn:E; cbn [fst snd] in *.
  - exists w1. now repeat split.
  - destruct (Hk w1 Hw1 Hfs1) as (w2 & Hk2 & Hfs2 & Hw2).
    rewrite Hw1, Hfs1 in Hk2, Hfs2. exists w2.
    split; [exact Hk2|]. split; [exact Hfs2 | congruence].
Qed.

Lemma tries_for_each {A} (l : list A) (body : A -> IO unit)
    (g : A -> list (string * string)) (w : world) :
  (forall x w1, tries (body x) (g x) w1) ->
  tries (for_each l body) (flat_map g l) w.
Proof.
  intros Hb. revert w. induction l as [|x l IH]; intros w; [apply tries_ret|].
  cbn [for_each flat_map]. apply tries_bind; [apply Hb|]. intros w1 _ _. apply IH.
Qed.

(** Whatever the table and the world, the file emitter makes its writes in
    order as far as they go. *)
Lemma generate_tx_json_over_tries (T : table) (w : world) :
  tries (generate_tx_json_over T) (emitted T) w.
Proof.
  rewrite emitted_flat_map. unfold generate_tx_json_over.
  apply tries_for_each. intros [k nd] w1. cbn [fst snd].
  change (flat_map _ (transactions nd))
    with ([] ++ [] ++ [] ++
          flat_map (fun tx => [(filename k tx, Json.dumps 2 (transaction nd tx))])
            (transactions nd)).
  apply tries_bind; [apply tries_print|]. intros w2 _ _.
  apply tries_bind; [apply tries_print|]. intros w3 _ _.
  apply tries_bind; [apply tries_print|]. intros w4 _ _.
  apply tries_for_each. intros tx w5.
  change [(filename k tx, Json.dumps 2 (transaction nd tx))]
    with ([(filename k tx, Json.dumps 2 (transaction nd tx))] ++ [] ++ [] ++ []).
  apply tries_bind; [apply tries_write_file|]. intros w6 _ _.
  apply tries_bind; [apply tries_print|]. intros w7 _ _.
  apply tries_bind; [apply tries_print|]. intros w8 _ _.
  apply tries_print.
Qed.

(** X1.  When a file cannot be opened the file emitter raises [OSError] for
    it: the files of the records before it are written, the file itself and
    those of the records after it are not touched. *)
Theorem generate_tx_json_stops_at_unwritable (T : table) (w : world)
    (pre post : list (string * string)) (f c : string) :
  emitted T = pre ++ (f, c) :: post ->
  Forall (fun g => writable w g = true) (map fst pre) ->
  writable w f = false ->
  exists w',
    generate_tx_json_over T w = Raised (OSError f) w'
    /\ fs w' = write_all pre (fs w)
    /\ writable w' = writable w.
Proof.
  intros Hsplit Hpre Hf.
  destruct (generate_tx_json_over_tries T w) as (w' & Hrun & Hfs & Hw).
  rewrite Hsplit, (attempt_stops _ pre post f c _ Hpre Hf) in Hrun, Hfs.
  now exists w'.
Qed.

Lemma generate_tx_json_stops_at_unwritable_witness :
  exists w',
    generate_tx_json_over TRANSACTIONS base_locked = Raised (OSError "tx_base_eth.json") w'
    /\ fs w' = write_all (firstn 3 (emitted TRANSACTIONS)) (fs base_locked)
    /\ writable w' = writable base_locked.
Proof.
  apply (generate_tx_json_stops_at_unwritable TRANSACTIONS base_locked
           (firstn 3 (emitted TRANSACTIONS)) (skipn 4 (emitted TRANSACTIONS))
           "tx_base_eth.json"
           (Json.dumps 2 (transaction (Build_network 8453 "Base" [])
                            (Build_tx_entry "ETH" "0xeb0835bf0000000000000000000000000000000000000000000000000000000000000000")))).
  - vm_compute. reflexivity.
  - repeat (apply List.Forall_cons; [reflexivity|]). apply List.Forall_nil.
  - reflexivity.
Defined.



(** ** File names *)

Lemma length_append (a b : string) :
  String.length (a +:+ b) = (String.length a + String.length b)%nat.
Proof.
  induction a as [|x a IH]; [reflexivity|].
  rewrite append_cons. cbn [String.length]. now rewrite IH.
Qed.

Lemma append_cancel_r (a b c : string) : a +:+ c = b +:+ c -> a = b.
Proof.
  revert b. induction a as [|x a IH]; intros [|y b] H.
  - reflexivity.
  - apply (f_equal String.length) in H. rewrite !length_append in H.
    cbn [String.length] in H. lia.
  - apply (f_equal String.length) in H. rewrite !length_append in H.
    cbn [String.length] in H. lia.
  - rewrite !append_cons in H. injection H as -> H. now rewrite (IH b H).
Qed.

Lemma split_at_underscore (k1 k2 r1 r2 : string) :
  all_chars not_underscore k1 = true ->
  all_chars not_underscore k2 = true ->
  k1 +:+ "_" +:+ r1 = k2 +:+ "_" +:+ r2 ->
  k1 = k2 /\ r1 = r2.
Proof.
  revert k2. induction k1 as [|x k1 IH]; intros [|y k2] H1 H2 H.
  - change (String "_" r1 = String "_" r2) in H. injection H as ->. now split.
  - change (String "_" r1 = String y (k2 +:+ "_" +:+ r2)) in H.
    injection H as <- _. cbn [all_chars] in H2. discriminate H2.
  - change (String x (k1 +:+ "_" +:+ r1) = String "_" r2) in H.
    injection H as -> _. cbn [all_chars] in H1. discriminate H1.
  - rewrite !append_cons in H. injection H as -> H.
    cbn [all_chars] in H1, H2.
    apply andb_true_iff in H1 as [_ H1]. apply andb_true_iff in H2 as [_ H2].
    destruct (IH k2 H1 H2 H) as [-> ->]. now split.
Qed.

Lemma name_injective (k1 k2 t1 t2 : string) :
  all_chars not_underscore k1 = true ->
  all_chars not_underscore k2 = true ->
  "tx_" +:+ k1 +:+ "_" +:+ t1 +:+ ".json" = "tx_" +:+ k2 +:+ "_" +:+ t2 +:+ ".json" ->
  k1 = k2 /\ t1 = t2.
Proof.
  intros H1 H2 H.
  change ("tx_" +:+ ?x) with (String "t" (String "x" (String "_" x))) in H.
  injection H as H.
  destruct (split_at_underscore _ _ _ _ H1 H2 H) as [-> Hr].
  split; [reflexivity|]. now apply append_cancel_r in Hr.
Qed.

(** X3.  For network keys without an underscore and ASCII token symbols,
    the file name tells the network key and the token symbol in lower case:
    two records get the same file name only when they agree on both. *)
Theorem filename_injective (k1 k2 : string) (tx1 tx2 : tx_entry) :
  all_chars not_underscore k1 = true ->
  all_chars not_underscore k2 = true ->
  Py.is_ascii (token tx1) = true ->
  Py.is_ascii (token tx2) = true ->
  filename k1 tx1 = filename k2 tx2 ->
  k1 = k2 /\ Py.lower (token tx1) = Py.lower (token tx2).
Proof. intros H1 H2 _ _ H. exact (name_injective _ _ _ _ H1 H2 H). Qed.

Lemma filename_injective_witness :
  "net" = "net" /\ Py.lower "Tok" = Py.lower "TOK".
Proof.
  apply (filename_injective "net" "net"
           (Build_tx_entry "Tok" "0x01") (Build_tx_entry "TOK" "0x02"));
    reflexivity.
Defined.

(** With an underscore in a key the name no longer tells key and token
    apart. *)
Lemma filename_clash :
  filename "a_b" (Build_tx_entry "C" EmptyString)
  = filename "a" (Build_tx_entry "b_c" EmptyString).
Proof. reflexivity. Qed.






(** ** What is printed along with the writes *)

Lemma runs_ret (w : world) : runs (ret tt) [] EmptyString w.
Proof. exists w. repeat split. now rewrite append_nil_r. Qed.

Lemma runs_print (s : string) (w : world) : runs (print s) [] (s +:+ Py.NL) w.
Proof. eexists. split; [reflexivity|]. now repeat split. Qed.

Lemma runs_write_file (f c : string) (w : world) :
  writable w f = true -> runs (write_file f c) [(f, c)] EmptyString w.
Proof.
  intros Hw. unfold runs, write_file. rewrite Hw.
  eexists. split; [reflexivity|]. repeat split.
  cbn [stdout]. now rewrite append_nil_r.
Qed.

Lemma runs_bind (m k : IO unit) (a b : list (string * string)) (s t : string)
    (w : world) :
  runs m a s w ->
  (forall w1, writable w1 = writable w -> runs k b t w1) ->
  runs (m ;; k)%io (a ++ b) (s +:+ t) w.
Proof.
  intros (w1 & Hm & Hf1 & Hw1 & Ht1) Hk.
  destruct (Hk w1 Hw1) as (w2 & Hk2 & Hf2 & Hw2 & Ht2).
  exists w2. split; [unfold bind; now rewrite Hm|]. repeat split.
  - now rewrite write_all_app, <- Hf1.
  - congruence.
  - now rewrite Ht2, Ht1, append_assoc.
Qed.

Lemma runs_for_each {A} (l : list A) (body : A -> IO unit)
    (g : A -> list (string * string)) (t : A -> string) (w : world) :
  (forall x w1, In x l -> writable w1 = writable w -> runs (body x) (g x) (t x) w1) ->
  runs (for_each l body) (flat_map g l) (cat (map t l)) w.
Proof.
  revert w. induction l as [|x l IH]; intros w Hb; [apply runs_ret|].
  cbn [for_each flat_map map cat]. apply runs_bind.
  - apply Hb; [now left | reflexivity].
  - intros w1 Hw1. apply IH. intros y w2 Hy Hw2.
    apply Hb; [now right | congruence].
Qed.

Lemma runs_print_only (m : IO unit) (w : world) :
  print_only m -> runs m [] (printed m) w.
Proof. intros H. exists (emit (printed m) w). now repeat split. Qed.

Lemma runs_text (m : IO unit) (ws : list (string * string)) (s t : string)
    (w : world) :
  s = t -> runs m ws s w -> runs m ws t w.
Proof. now intros ->. Qed.

Lemma generate_tx_json_over_runs (T : table) (w : world) :
  can_emit T w -> runs (generate_tx_json_over T) (emitted T) (report T) w.
Proof.
  unfold can_emit. rewrite emitted_flat_map. intros Hcan.
  unfold generate_tx_json_over, report.
  apply runs_for_each.
  intros [k nd] w1 Hin Hw1. cbn [fst snd].
  change (flat_map _ (transactions nd))
    with ([] ++ [] ++ [] ++
          flat_map (fun tx => [(filename k tx, Json.dumps 2 (transaction nd tx))])
            (transactions nd)).
  eapply runs_text; cycle 1.
  { apply runs_bind; [apply runs_print|]. intros w2 Hw2.
    apply runs_bind; [apply runs_print|]. intros w3 Hw3.
    apply runs_bind; [apply runs_print|]. intros w4 Hw4.
    apply (runs_for_each _ _ _
             (fun tx => EmptyString
                        +:+ ((Py.NL +:+ "✅ Criado: " +:+ filename k tx) +:+ Py.NL)
                        +:+ (("   Token: " +:+ token tx) +:+ Py.NL)
                        +:+ "   Para usar: Importe este JSON na sua wallet" +:+ Py.NL)).
    intros tx w5 Htx Hw5.
    change [(filename k tx, Json.dumps 2 (transaction nd tx))]
      with ([(filename k tx, Json.dumps 2 (transaction nd tx))] ++ [] ++ [] ++ []).
    apply runs_bind.
    { apply runs_write_file.
      replace (writable w5) with (writable w) by congruence.
      rewrite List.Forall_forall in Hcan. apply Hcan.
      apply in_map_iff. exists (filename k tx, Json.dumps 2 (transaction nd tx)).
      split; [reflexivity|].
      apply in_flat_map. exists (k, nd). split; [exact Hin|].
      apply in_flat_map. exists tx. split; [exact Htx | now left]. }
    intros w6 _.
    apply runs_bind; [apply runs_print|]. intros w7 _.
    apply runs_bind; [apply runs_print|]. intros w8 _.
    apply runs_print. }
  rewrite !append_assoc. under_prefix. intros tx.
  now rewrite !append_assoc.
Qed.


(** ** The console emitter *)


(** ** The script as a whole *)

(** X6.  Where the files open, [main] returns: the files are as the file
    emitter leaves them, and standard output has grown by the title, the
    report of the file emitter, the console snippets, the curl commands and
    the two closing lines, in this order. *)
Theorem main_runs (w : world) :
  can_emit TRANSACTIONS w ->
  exists w',
    main w = Returned tt w'
    /\ fs w' = write_all (emitted TRANSACTIONS) (fs w)
    /\ writable w' = writable w
    /\ stdout w' = stdout w +:+ title +:+ report TRANSACTIONS
                   +:+ printed generate_copy_paste
                   +:+ printed generate_curl_commands +:+ farewell.
Proof.
  intros Hcan.
  change (runs main (emitted TRANSACTIONS)
            (title +:+ report TRANSACTIONS +:+ printed generate_copy_paste
             +:+ printed generate_curl_commands +:+ farewell) w).
  unfold main.
  replace (emitted TRANSACTIONS)
    with ([] ++ [] ++ emitted TRANSACTIONS ++ [] ++ [] ++ [] ++ [])
    by (cbn [app]; now rewrite app_nil_r).
  eapply runs_text; cycle 1.
  { apply runs_bind; [apply runs_print|]. intros w1 Hw1.
    apply runs_bind; [apply runs_print|]. intros w2 Hw2.
    apply runs_bind.
    { apply generate_tx_json_over_runs. unfold can_emit. now rewrite Hw2, Hw1. }
    intros w3 Hw3.
    apply runs_bind.
    { apply runs_print_only, generate_copy_paste_over_print_only. }
    intros w4 Hw4.
    apply runs_bind.
    { apply runs_print_only, generate_curl_commands_over_print_only. }
    intros w5 Hw5.
    apply runs_bind; [apply runs_print|]. intros w6 Hw6.
    apply runs_print. }
  unfold title, farewell. now rewrite !append_assoc.
Qed.

Lemma main_runs_witness :
  exists w',
    main blank = Returned tt w'
    /\ fs w' = write_all (emitted TRANSACTIONS) (fs blank)
    /\ writable w' = writable blank
    /\ stdout w' = stdout blank +:+ title +:+ report TRANSACTIONS
                   +:+ printed generate_copy_paste
                   +:+ printed generate_curl_commands +:+ farewell.
Proof.
  apply (main_runs blank).
  apply List.Forall_forall. intros f _. reflexivity.
Defined.

(** X7.  When the file emitter raises, [main] raises the same error and
    ends in the world the file emitter ended in: after the title and what
    the file emitter did up to the failure, nothing more is written or
    printed, neither console snippets nor curl commands. *)
Theorem main_stops_at_first_failure (w : world) (f : string) :
  snd (attempt (writable w) (emitted TRANSACTIONS) (fs w)) = Some f ->
  exists w',
    generate_tx_json (emit title w) = Raised (OSError f) w'
    /\ main w = Raised (OSError f) w'
    /\ fs w' = fst (attempt (writable w) (emitted TRANSACTIONS) (fs w)).
Proof.
  intros Hfail.
  destruct (generate_tx_json_over_tries TRANSACTIONS (emit title w))
    as (w' & Hrun & Hfs & _).
  cbn [emit fs writable] in Hrun, Hfs. rewrite Hfail in Hrun.
  exists w'. split; [exact Hrun|]. split; [|exact Hfs].
  unfold main, generate_tx_json, bind.
  change (print "🔧 Gerador de Transações para Habilitar Tokens" w)
    with (Returned tt (emit ("🔧 Gerador de Transações para Habilitar Tokens" +:+ Py.NL) w)).
  cbv iota beta.
  change (print (Py.repeat "=" 70)
            (emit ("🔧 Gerador de Transações para Habilitar Tokens" +:+ Py.NL) w))
    with (Returned tt
            (emit (Py.repeat "=" 70 +:+ Py.NL)
               (emit ("🔧 Gerador de Transações para Habilitar Tokens" +:+ Py.NL) w))).
  cbv iota beta. rewrite emit_emit.
  replace (("🔧 Gerador de Transações para Habilitar Tokens" +:+ Py.NL)
           +:+ Py.repeat "=" 70 +:+ Py.NL) with title
    by (unfold title; now rewrite append_assoc).
  now rewrite Hrun.
Qed.

Lemma main_stops_at_first_failure_witness :
  exists w',
    generate_tx_json (emit title base_locked) = Raised (OSError "tx_base_eth.json") w'
    /\ main base_locked = Raised (OSError "tx_base_eth.json") w'
    /\ fs w' = fst (attempt (writable base_locked) (emitted TRANSACTIONS) (fs base_locked)).
Proof.
  apply (main_stops_at_first_failure base_locked "tx_base_eth.json").
  vm_compute. reflexivity.
Defined.

(** ** The report of the file emitter *)
















(** ** JSON text and back *)

Lemma scanstring_escape_ascii (c : ascii) (rest : string) :
  Py.is_ascii_char c = true ->
  Json.scanstring (Json.escape_ascii c +:+ rest)
  = Json.prepend (Some (String c EmptyString)) (Json.scanstring rest).
Proof.
  destruct c as [b0 b1 b2 b3 b4 b5 b6 b7].
  destruct b7; [intros H; destruct b0, b1, b2, b3, b4, b5, b6; discriminate H|].
  intros _. destruct b0, b1, b2, b3, b4, b5, b6; reflexivity.
Qed.

Lemma escape_cons_ascii (c : ascii) (s : string) :
  Py.is_ascii_char c = true ->
  Json.escape (String c s) = Json.escape_ascii c +:+ Json.escape s.
Proof.
  intros H. cbn [Json.escape].
  change (N_of_ascii c <? 128)%N with (Py.is_ascii_char c). now rewrite H.
Qed.

Lemma scanstring_escape (s rest : string) :
  Py.is_ascii s = true ->
  Json.scanstring (Json.escape s +:+ Py.DQ +:+ rest) = Some (s, rest).
Proof.
  induction s as [|c s IH]; intros H; [reflexivity|].
  cbn [Py.is_ascii] in H. apply andb_true_iff in H as [Hc Hs].
  rewrite (escape_cons_ascii c s Hc), append_assoc.
  rewrite (scanstring_escape_ascii c _ Hc), (IH Hs). reflexivity.
Qed.

Lemma digits_stop (acc : Z) (rest : string) :
  no_digit_ahead rest = true -> Json.digits acc rest = (acc, rest).
Proof.
  destruct rest as [|c r]; [reflexivity|]. cbn [no_digit_ahead Json.digits].
  intros H. apply negb_true_iff in H. now rewrite H.
Qed.

Lemma digits_uint (d : Decimal.uint) (acc : Z) (rest : string) :
  no_digit_ahead rest = true ->
  Json.digits acc (NilEmpty.string_of_uint d +:+ rest) = (uint_value acc d, rest).
Proof.
  intros Hrest. revert acc.
  induction d as [|d IH|d IH|d IH|d IH|d IH|d IH|d IH|d IH|d IH|d IH]; intros acc;
    [ now apply digits_stop | .. ];
    cbn [NilEmpty.string_of_uint uint_value]; rewrite append_cons;
    exact (IH _).
Qed.

Lemma uint_value_pos (d : Decimal.uint) (acc : positive) :
  uint_value (Z.pos acc) d = Z.pos (Pos.of_uint_acc d acc).
Proof.
  revert acc.
  induction d as [|d IH|d IH|d IH|d IH|d IH|d IH|d IH|d IH|d IH|d IH]; intros acc;
    [ reflexivity | .. ];
    cbn [uint_value Pos.of_uint_acc]; rewrite <- IH; f_equal; lia.
Qed.

Lemma uint_value_0 (d : Decimal.uint) : uint_value 0 d = Z.of_N (Pos.of_uint d).
Proof.
  induction d as [|d IH|d IH|d IH|d IH|d IH|d IH|d IH|d IH|d IH|d IH];
    [ reflexivity | exact IH | .. ];
    cbn [uint_value Pos.of_uint Z.of_N]; rewrite <- uint_value_pos; reflexivity.
Qed.

Lemma nzhead_not_D0 (u v : Decimal.uint) : Decimal.nzhead u <> Decimal.D0 v.
Proof. induction u; cbn [Decimal.nzhead]; try discriminate. exact IHu. Qed.

(** The decimal of a positive number starts with a digit that is not 0. *)
Lemma to_uint_head (p : positive) :
  exists c r,
    NilZero.string_of_uint (Pos.to_uint p) = String c r
    /\ NilEmpty.string_of_uint (Pos.to_uint p) = String c r
    /\ Json.is_digit c = true /\ (c =? "0")%char = false.
Proof.
  assert (Hnorm : Pos.to_uint p = Decimal.unorm (Pos.to_uint p)).
  { rewrite <- DecimalPos.Unsigned.to_of, DecimalPos.Unsigned.of_to. reflexivity. }
  pose proof (DecimalPos.Unsigned.to_uint_nonzero p) as Hnz.
  destruct (Pos.to_uint p) as [|u|u|u|u|u|u|u|u|u|u];
    try (eexists; eexists; repeat split; reflexivity).
  - discriminate Hnorm.
  - exfalso. unfold Decimal.unorm in Hnorm. cbn [Decimal.nzhead] in Hnorm.
    destruct (Decimal.nzhead u) eqn:E; try discriminate Hnorm.
    + injection Hnorm as ->. now apply Hnz.
    + now apply (nzhead_not_D0 u u0).
Qed.

Lemma natural_to_uint (p : positive) (rest : string) :
  no_digit_ahead rest = true ->
  Json.natural (NilZero.string_of_uint (Pos.to_uint p) +:+ rest) = Some (Z.pos p, rest).
Proof.
  intros Hrest. destruct (to_uint_head p) as (c & r & Hz & He & Hd & H0).
  rewrite Hz, append_cons. cbn [Json.natural]. rewrite H0, Hd.
  rewrite <- append_cons, <- He, (digits_uint _ 0 rest Hrest).
  now rewrite uint_value_0, DecimalPos.Unsigned.of_to.
Qed.

Lemma number_str (n : Z) (rest : string) :
  no_digit_ahead rest = true ->
  Json.float_follows rest = false ->
  Json.number (Py.str n +:+ rest) = Some (Json.Int n, rest).
Proof.
  intros Hrest Hfl. unfold Py.str, Json.number.
  destruct n as [|p|p]; cbn [Z.to_int NilZero.string_of_int].
  - change (NilZero.string_of_uint (Decimal.D0 Decimal.Nil) +:+ rest)
      with (String "0" rest).
    cbn [Json.natural].
    change ("0" =? "-")%char with false. change ("0" =? "0")%char with true.
    cbv iota. now rewrite Hfl.
  - destruct (to_uint_head p) as (c & r & Hz & _ & Hd & _).
    pose proof (natural_to_uint p rest Hrest) as Hnat.
    rewrite Hz, append_cons in *.
    replace (c =? "-")%char with false.
    + now rewrite Hnat, Hfl.
    + destruct c as [[] [] [] [] [] [] [] []]; try discriminate Hd; reflexivity.
  - rewrite append_cons. cbn [Ascii.eqb Bool.eqb].
    change ("-" =? "-")%char with true. cbv iota.
    rewrite (natural_to_uint p rest Hrest). now rewrite Hfl.
Qed.

Lemma str_head (n : Z) :
  exists c r, Py.str n = String c r /\ number_head c = true.
Proof.
  unfold Py.str. destruct n as [|p|p]; cbn [Z.to_int NilZero.string_of_int].
  - now exists "0"%char, EmptyString.
  - destruct (to_uint_head p) as (c & r & Hz & _ & Hd & _).
    exists c, r. split; [exact Hz|]. unfold number_head. now rewrite Hd.
  - eexists; eexists. split; reflexivity.
Qed.

Lemma scan_once_number (fuel : nat) (c : ascii) (r : string) :
  number_head c = true ->
  Json.scan_once (S fuel) (String c r) = Json.number (String c r).
Proof.
  destruct c as [b0 b1 b2 b3 b4 b5 b6 b7].
  destruct b0, b1, b2, b3, b4, b5, b6, b7; intros H;
    first [ discriminate H | reflexivity ].
Qed.

Lemma scan_once_str (fuel : nat) (n : Z) (rest : string) :
  no_digit_ahead rest = true ->
  Json.float_follows rest = false ->
  Json.scan_once (S fuel) (Py.str n +:+ rest) = Some (Json.Int n, rest).
Proof.
  intros Hrest Hfl. destruct (str_head n) as (c & r & Hs & Hc).
  rewrite <- (number_str n rest Hrest Hfl), Hs, append_cons.
  now apply scan_once_number.
Qed.

Lemma scan_once_string (fuel : nat) (s rest : string) :
  Py.is_ascii s = true ->
  Json.scan_once (S fuel) (Json.encode_basestring_ascii s +:+ rest)
  = Some (Json.Str s, rest).
Proof.
  intros Hs. unfold Json.encode_basestring_ascii.
  change (Py.DQ +:+ ?x) with (String Py.dquote x).
  rewrite append_cons. cbn [Json.scan_once].
  change (Py.dquote =? Py.dquote)%char with true. cbv iota.
  rewrite append_assoc. now rewrite (scanstring_escape s rest Hs).
Qed.

Lemma item_ends_spec (s : string) :
  item_ends s = true ->
  no_digit_ahead s = true /\ Json.float_follows s = false.
Proof.
  destruct s as [|c r]; [discriminate|]. cbn [item_ends no_digit_ahead].
  destruct c as [b0 b1 b2 b3 b4 b5 b6 b7].
  destruct b0, b1, b2, b3, b4, b5, b6, b7; intros H;
    first [ discriminate H | split; [reflexivity | now destruct r] ].
Qed.

Lemma scan_once_flat (fuel : nat) (v : Json.value) (rest : string) :
  flat v = true ->
  item_ends rest = true ->
  Json.skip_ws (Json.encode 2 1 v +:+ rest) = Json.encode 2 1 v +:+ rest
  /\ Json.scan_once (S fuel) (Json.encode 2 1 v +:+ rest) = Some (v, rest).
Proof.
  intros Hv Hrest. destruct (item_ends_spec rest Hrest) as [Hd Hf].
  destruct v as [|[]|n|s|l|l]; try discriminate Hv; cbn [Json.encode].
  - split; reflexivity.
  - split; reflexivity.
  - split; reflexivity.
  - destruct (str_head n) as (c & r & Hs & Hc). split.
    + rewrite Hs, append_cons. cbn [Json.skip_ws].
      replace (Json.is_ws c) with false; [reflexivity|].
      destruct c as [[] [] [] [] [] [] [] []]; try discriminate Hc; reflexivity.
    + now apply scan_once_str.
  - split; [reflexivity|]. now apply scan_once_string.
Qed.

Lemma skip_ws_blank (ws x : string) :
  all_chars Json.is_ws ws = true -> Json.skip_ws (ws +:+ x) = Json.skip_ws x.
Proof.
  induction ws as [|c ws IH]; [reflexivity|]. cbn [all_chars]. intros H.
  apply andb_true_iff in H as [Hc Hws]. rewrite append_cons.
  cbn [Json.skip_ws]. rewrite Hc. now apply IH.
Qed.

Lemma item_ends_outer (outer rest : string) :
  all_chars Json.is_ws outer = true -> item_ends (outer +:+ String "}" rest) = true.
Proof.
  destruct outer as [|c o]; [reflexivity|]. cbn [all_chars]. intros H.
  apply andb_true_iff in H as [Hc _]. rewrite append_cons. cbn [item_ends].
  now rewrite Hc, orb_true_r.
Qed.

Lemma dict_set_fresh (d : list (string * Json.value)) (k : string) (v : Json.value) :
  ~ In k (map fst d) -> Json.dict_set d k v = d ++ [(k, v)].
Proof.
  induction d as [|[k' v'] d IH]; intros Hk; [reflexivity|].
  cbn [Json.dict_set app]. destruct (String.eqb_spec k k') as [->|Hne].
  - exfalso. apply Hk. now left.
  - rewrite IH; [reflexivity|]. intros Hin. apply Hk. now right.
Qed.

Lemma fold_dict_set (l acc : list (string * Json.value)) :
  List.NoDup (map fst (acc ++ l)) ->
  fold_left (fun d kv => Json.dict_set d (fst kv) (snd kv)) l acc = acc ++ l.
Proof.
  revert acc. induction l as [|[k v] l IH]; intros acc Hnd.
  - now rewrite app_nil_r.
  - cbn [fold_left fst snd]. rewrite dict_set_fresh.
    + rewrite IH; rewrite <- app_assoc; [reflexivity | exact Hnd].
    + rewrite map_app in Hnd. cbn [map fst] in Hnd.
      apply List.NoDup_remove_2 in Hnd. intros Hin. apply Hnd.
      apply in_or_app. now left.
Qed.

Lemma dict_NoDup (l : list (string * Json.value)) :
  List.NoDup (map fst l) -> Json.dict l = l.
Proof. intros H. exact (fold_dict_set l [] H). Qed.

Lemma join_cons2 (sep a b : string) (l : list string) :
  Json.join sep (a :: b :: l) = a +:+ sep +:+ Json.join sep (b :: l).
Proof. reflexivity. Qed.

Lemma join_head (sep : string) (kv : string * Json.value)
    (ms : list (string * Json.value)) (tail : string) :
  exists r, Json.join sep (map item (kv :: ms)) +:+ tail = String Py.dquote r.
Proof. destruct ms; eexists; reflexivity. Qed.

Lemma members_walk (inner outer : string) (ms : list (string * Json.value)) :
  all_chars Json.is_ws inner = true ->
  all_chars Json.is_ws outer = true ->
  forall (acc : list (string * Json.value)) (fuel : nat) (r rest : string),
    ms <> [] ->
    Forall (fun kv => Py.is_ascii (fst kv) = true /\ flat (snd kv) = true) ms ->
    (length ms < fuel)%nat ->
    String Py.dquote r
    = Json.join ("," +:+ inner) (map item ms) +:+ outer +:+ "}" +:+ rest ->
    Json.object_members fuel r acc
    = Some (Json.Obj (Json.dict (rev acc ++ ms)), rest).
Proof.
  intros Hinner Houter.
  induction ms as [|[k v] ms IH]; intros acc fuel r rest Hne Hflat Hfuel Hr;
    [now destruct Hne|].
  apply List.Forall_cons_iff in Hflat as [[Hk Hv] Hms]. cbn [fst snd] in Hk, Hv.
  destruct fuel as [|f]; [cbn [length] in Hfuel; lia|].
  destruct ms as [|kv2 ms].
  - (* the last member *)
    assert (Er : r = Json.escape k +:+ Py.DQ
                     +:+ String ":" (String " " (Json.encode 2 1 v
                                                  +:+ outer +:+ String "}" rest))).
    { cbn [map Json.join] in Hr. unfold item, Json.encode_basestring_ascii in Hr.
      cbn [fst snd] in Hr. rewrite !append_assoc in Hr.
      change (Py.DQ +:+ ?x) with (String Py.dquote x) in Hr at 1.
      injection Hr as ->. reflexivity. }
    subst r. cbn [Json.object_members].
    rewrite (scanstring_escape k _ Hk).
    change (Json.skip_ws (String ":" ?x)) with (String ":" x).
    change (":" =? ":")%char with true. cbv iota.
    change (Json.skip_ws (String " " ?x)) with (Json.skip_ws x).
    destruct f as [|fuel]; [cbn [length] in Hfuel; lia|].
    destruct (scan_once_flat fuel v (outer +:+ String "}" rest) Hv
                (item_ends_outer outer rest Houter)) as [Hskip Hscan].
    rewrite Hskip, Hscan. rewrite (skip_ws_blank outer _ Houter).
    change (Json.skip_ws (String "}" rest)) with (String "}" rest).
    change ("}" =? "}")%char with true. cbv iota.
    cbn [rev]. reflexivity.
  - (* a member followed by another *)
    destruct (join_head ("," +:+ inner) kv2 ms (outer +:+ "}" +:+ rest))
      as (r2 & Hr2).
    assert (Er : r = Json.escape k +:+ Py.DQ
                     +:+ String ":" (String " " (Json.encode 2 1 v
                           +:+ String "," (inner +:+ String Py.dquote r2)))).
    { rewrite <- Hr2. cbn [map] in Hr. rewrite join_cons2 in Hr.
      unfold item at 1, Json.encode_basestring_ascii at 1 in Hr.
      cbn [fst snd] in Hr. rewrite !append_assoc in Hr.
      change (Py.DQ +:+ ?x) with (String Py.dquote x) in Hr at 1.
      injection Hr as ->. reflexivity. }
    subst r. cbn [Json.object_members].
    rewrite (scanstring_escape k _ Hk).
    change (Json.skip_ws (String ":" ?x)) with (String ":" x).
    change (":" =? ":")%char with true. cbv iota.
    change (Json.skip_ws (String " " ?x)) with (Json.skip_ws x).
    destruct f as [|fuel]; [cbn [length] in Hfuel; lia|].
    destruct (scan_once_flat fuel v (String "," (inner +:+ String Py.dquote r2))
                Hv eq_refl) as [Hskip Hscan].
    rewrite Hskip, Hscan.
    change (Json.skip_ws (String "," ?x)) with (String "," x).
    change ("," =? "}")%char with false. change ("," =? ",")%char with true.
    cbv iota. rewrite (skip_ws_blank inner _ Hinner).
    change (Json.skip_ws (String Py.dquote r2)) with (String Py.dquote r2).
    change (Py.dquote =? Py.dquote)%char with true. cbv iota.
    rewrite (IH ((k, v) :: acc) (S fuel) r2 rest); try assumption.
    + cbn [rev]. now rewrite <- app_assoc.
    + discriminate.
    + cbn [length] in *. lia.
    + now rewrite Hr2.
Qed.

Lemma join_length (sep : string) (ms : list (string * Json.value)) :
  (length ms <= String.length (Json.join (String "," sep) (map item ms)) + 1)%nat.
Proof.
  induction ms as [|kv ms IH]; [cbn; lia|].
  destruct ms as [|kv2 ms]; [cbn [length]; lia|].
  cbn [map] in *. rewrite join_cons2, !length_append.
  cbn [length String.length] in *. lia.
Qed.

(** A flat object laid out over several lines, or on one, reads back as
    itself. *)
Lemma object_text_loads (inner outer : string) (ms : list (string * Json.value)) :
  all_chars Json.is_ws inner = true ->
  all_chars Json.is_ws outer = true ->
  ms <> [] ->
  flat_object ms ->
  Json.loads (object_text inner outer ms) = Some (Json.Obj ms).
Proof.
  intros Hinner Houter Hne [Hnd Hflat]. destruct ms as [|kv ms]; [now destruct Hne|].
  destruct (join_head ("," +:+ inner) kv ms (outer +:+ "}")) as (r2 & Hr2).
  assert (Etext : object_text inner outer (kv :: ms)
                  = String "{" (inner +:+ String Py.dquote r2)).
  { rewrite <- Hr2. reflexivity. }
  unfold Json.loads. rewrite Etext.
  change (Json.skip_ws (String "{" ?x)) with (String "{" x).
  remember (String.length _) as L eqn:EL.
  cbn [Json.scan_once].
  change ("{" =? Py.dquote)%char with false. change ("{" =? "{")%char with true.
  cbv iota. rewrite (skip_ws_blank inner _ Hinner).
  change (Json.skip_ws (String Py.dquote r2)) with (String Py.dquote r2).
  change (Py.dquote =? "}")%char with false.
  change (Py.dquote =? Py.dquote)%char with true. cbv iota.
  rewrite (members_walk inner outer (kv :: ms) Hinner Houter [] L r2 EmptyString).
  - cbn [rev app Json.skip_ws]. now rewrite (dict_NoDup _ Hnd).
  - discriminate.
  - exact Hflat.
  - subst L. pose proof (join_length inner (kv :: ms)) as Hlen.
    apply (f_equal String.length) in Hr2. rewrite !length_append in Hr2.
    change ("," +:+ inner) with (String "," inner) in Hr2.
    cbn [String.length] in *. rewrite length_append.
    cbn [String.length] in *. lia.
  - symmetry. exact Hr2.
Qed.

Lemma dumps_object_text (ms : list (string * Json.value)) :
  ms <> [] ->
  Json.dumps 2 (Json.Obj ms)
  = object_text (Json.newline_indent 2 1) (Json.newline_indent 2 0) ms.
Proof. destruct ms; [intros H; now destruct H | reflexivity]. Qed.

(** X9.  Whatever chain id can be turned into text, and whatever ASCII
    text the calldata is (quotes, backslashes and control characters
    included), the text written for a record is JSON that reads back as the
    object of the record, with its four members in order. *)
Theorem transaction_round_trip (nd : network) (tx : tx_entry) :
  Py.within_max_str_digits (chainId nd) = true ->
  Py.is_ascii (data tx) = true ->
  Json.loads (Json.dumps 2 (transaction nd tx)) = Some (transaction nd tx).
Proof.
  intros _ Hdata. unfold transaction. rewrite dumps_object_text by discriminate.
  apply object_text_loads; try reflexivity; try discriminate. split.
  - apply NoDup_ListNoDup, (bool_decide_unpack _). vm_compute. exact I.
  - repeat (apply List.Forall_cons; [split; [reflexivity|]; try reflexivity|]).
    + exact Hdata.
    + apply List.Forall_nil.
Qed.

Lemma transaction_round_trip_witness :
  Json.loads
    (Json.dumps 2
       (transaction (Build_network (-7) "Net" [])
          (Build_tx_entry "T" (String Py.dquote (String Py.backslash (String Py.nl "x"))))))
  = Some (transaction (Build_network (-7) "Net" [])
            (Build_tx_entry "T" (String Py.dquote (String Py.backslash (String Py.nl "x"))))).
Proof.
  apply (transaction_round_trip (Build_network (-7) "Net" [])
           (Build_tx_entry "T" (String Py.dquote (String Py.backslash (String Py.nl "x"))))).
  - vm_compute. reflexivity.
  - reflexivity.
Defined.




Lemma all_chars_impl (p q : ascii -> bool) (s : string) :
  (forall c, p c = true -> q c = true) ->
  all_chars p s = true -> all_chars q s = true.
Proof.
  intros Hpq. induction s as [|c s IH]; [reflexivity|]. cbn [all_chars].
  intros H. apply andb_true_iff in H as [Hc Hs]. now rewrite (Hpq c Hc), IH.
Qed.




(** A double quote in the calldata ends the string early: the body is then
    no JSON at all, while the file of the same record still reads back. *)
Lemma curl_body_unescaped :
  Json.loads (curl_body (Build_tx_entry "T" Py.DQ)) = None
  /\ Json.loads (Json.dumps 2 (transaction (Build_network 1 "Net" [])
                                 (Build_tx_entry "T" Py.DQ)))
     = Some (transaction (Build_network 1 "Net" []) (Build_tx_entry "T" Py.DQ)).
Proof. split; vm_compute; reflexivity. Qed.


(** ** The text of a file *)

Lemma hex_digit_printable (n : N) : is_printable (Json.hex_digit (N.land n 15)) = true.
Proof.
  assert (H : (N.land n 15 < 16)%N).
  { change 15%N with (N.ones 4). rewrite N.land_ones. now apply N.mod_lt. }
  remember (N.land n 15) as m eqn:E. clear E n.
  assert (Hm : (m = 0 \/ m = 1 \/ m = 2 \/ m = 3 \/ m = 4 \/ m = 5 \/ m = 6 \/ m = 7
                \/ m = 8 \/ m = 9 \/ m = 10 \/ m = 11 \/ m = 12 \/ m = 13 \/ m = 14
                \/ m = 15)%N) by lia.
  repeat (destruct Hm as [->|Hm]; [reflexivity|]). now subst m.
Qed.

Lemma u_escape_printable (n : N) : all_chars is_printable (Json.u_escape n) = true.
Proof.
  unfold Json.u_escape. cbn [all_chars]. rewrite !hex_digit_printable. reflexivity.
Qed.

Lemma escape_code_point_printable (cp : N) :
  all_chars is_printable (Json.escape_code_point cp) = true.
Proof.
  unfold Json.escape_code_point. destruct (cp <? 65536)%N.
  - apply u_escape_printable.
  - now rewrite all_chars_app, !u_escape_printable.
Qed.

Lemma escape_ascii_printable (c : ascii) :
  all_chars is_printable (Json.escape_ascii c) = true.
Proof.
  destruct c as [b0 b1 b2 b3 b4 b5 b6 b7].
  destruct b0, b1, b2, b3, b4, b5, b6, b7; reflexivity.
Qed.

Lemma escape_printable_bounded (n : nat) (s : string) :
  (String.length s <= n)%nat -> all_chars is_printable (Json.escape s) = true.
Proof.
  revert s. induction n as [|n IH]; intros s Hlen.
  - destruct s; [reflexivity | cbn [String.length] in Hlen; lia].
  - destruct s as [|c r]; [reflexivity|]. cbn [String.length] in Hlen.
    cbn [Json.escape].
    destruct (N_of_ascii c <? 128)%N.
    { rewrite all_chars_app, escape_ascii_printable. apply IH. lia. }
    destruct (N_of_ascii c <? 224)%N.
    { destruct r as [|c1 r1]; [reflexivity|]. cbn [String.length] in Hlen.
      rewrite all_chars_app, escape_code_point_printable. apply IH. lia. }
    destruct (N_of_ascii c <? 240)%N.
    { destruct r as [|c1 [|c2 r2]]; try reflexivity. cbn [String.length] in Hlen.
      rewrite all_chars_app, escape_code_point_printable. apply IH. lia. }
    destruct r as [|c1 [|c2 [|c3 r3]]]; try reflexivity. cbn [String.length] in Hlen.
    rewrite all_chars_app, escape_code_point_printable. apply IH. lia.
Qed.

(** Whatever the string, what the encoder puts between the quotes is
    printable ASCII. *)
Lemma escape_printable (s : string) : all_chars is_printable (Json.escape s) = true.
Proof. exact (escape_printable_bounded (String.length s) s (Nat.le_refl _)). Qed.

Lemma uint_printable (d : Decimal.uint) :
  all_chars is_printable (NilEmpty.string_of_uint d) = true.
Proof. induction d; cbn [NilEmpty.string_of_uint all_chars]; auto. Qed.

Lemma str_printable (n : Z) : all_chars is_printable (Py.str n) = true.
Proof.
  unfold Py.str. destruct (Z.to_int n) as [d|d]; cbn [NilZero.string_of_int].
  - unfold NilZero.string_of_uint. destruct d; try reflexivity; apply uint_printable.
  - cbn [all_chars]. unfold NilZero.string_of_uint.
    destruct d; try reflexivity; apply uint_printable.
Qed.

Lemma is_ascii_all_chars (s : string) : Py.is_ascii s = all_chars Py.is_ascii_char s.
Proof. induction s as [|c s IH]; [reflexivity|]. cbn [Py.is_ascii all_chars]. now rewrite IH. Qed.

Lemma printable_not_newline (c : ascii) : is_printable c = true -> not_newline c = true.
Proof.
  destruct c as [b0 b1 b2 b3 b4 b5 b6 b7].
  destruct b0, b1, b2, b3, b4, b5, b6, b7; intros H;
    first [ discriminate H | reflexivity ].
Qed.

Lemma printable_or_newline_ascii (c : ascii) :
  is_printable c || (c =? Py.nl)%char = true -> Py.is_ascii_char c = true.
Proof.
  destruct c as [b0 b1 b2 b3 b4 b5 b6 b7].
  destruct b0, b1, b2, b3, b4, b5, b6, b7; intros H;
    first [ discriminate H | reflexivity ].
Qed.

Lemma printable_no_newline (s : string) :
  all_chars is_printable s = true -> no_newline s.
Proof.
  intros H. apply no_newline_all_chars.
  exact (all_chars_impl _ _ s printable_not_newline H).
Qed.

Lemma printable_or_newline (c : ascii) :
  is_printable c = true -> is_printable c || (c =? Py.nl)%char = true.
Proof. now intros ->. Qed.

(** X10.  Whatever the calldata, and whatever chain id can be turned into
    text, the text written for a record is ASCII and has six lines: the
    opening brace, one line for each of [to], [value], [data] and
    [chainId], and the closing brace, without a line break at the end.  The
    calldata stands on its line as the encoder escapes it. *)
Theorem emitted_file_text (nd : network) (tx : tx_entry) :
  Py.within_max_str_digits (chainId nd) = true ->
  Py.is_ascii (Json.dumps 2 (transaction nd tx)) = true
  /\ lines (Json.dumps 2 (transaction nd tx))
     = [ "{";
         "  " +:+ Py.DQ +:+ "to" +:+ Py.DQ +:+ ": " +:+ Py.DQ +:+ CONTRACT_ADDRESS +:+ Py.DQ +:+ ",";
         "  " +:+ Py.DQ +:+ "value" +:+ Py.DQ +:+ ": " +:+ Py.DQ +:+ "0x0" +:+ Py.DQ +:+ ",";
         "  " +:+ Py.DQ +:+ "data" +:+ Py.DQ +:+ ": "
           +:+ Py.DQ +:+ Json.escape (data tx) +:+ Py.DQ +:+ ",";
         "  " +:+ Py.DQ +:+ "chainId" +:+ Py.DQ +:+ ": " +:+ Py.str (chainId nd);
         "}" ].
Proof.
  intros _.
  pose proof (escape_printable (data tx)) as He.
  pose proof (str_printable (chainId nd)) as Hn.
  split.
  - rewrite is_ascii_all_chars.
    apply (all_chars_impl (fun c => is_printable c || (c =? Py.nl)%char));
      [exact printable_or_newline_ascii|].
    assert (He' := all_chars_impl is_printable
                     (fun c => is_printable c || (c =? Py.nl)%char) _
                     printable_or_newline He).
    assert (Hn' := all_chars_impl is_printable
                     (fun c => is_printable c || (c =? Py.nl)%char) _
                     printable_or_newline Hn).
    unfold Json.dumps, transaction.
    cbn [Json.encode map Json.join fst snd]. unfold Json.encode_basestring_ascii.
    rewrite !all_chars_app, He', Hn'. reflexivity.
  - assert (E : Json.dumps 2 (transaction nd tx)
                = "{" +:+ Py.NL
                  +:+ ("  " +:+ Py.DQ +:+ "to" +:+ Py.DQ +:+ ": " +:+ Py.DQ +:+ CONTRACT_ADDRESS +:+ Py.DQ +:+ ",") +:+ Py.NL
                  +:+ ("  " +:+ Py.DQ +:+ "value" +:+ Py.DQ +:+ ": " +:+ Py.DQ +:+ "0x0" +:+ Py.DQ +:+ ",") +:+ Py.NL
                  +:+ ("  " +:+ Py.DQ +:+ "data" +:+ Py.DQ +:+ ": "
                       +:+ Py.DQ +:+ Json.escape (data tx) +:+ Py.DQ +:+ ",") +:+ Py.NL
                  +:+ ("  " +:+ Py.DQ +:+ "chainId" +:+ Py.DQ +:+ ": " +:+ Py.str (chainId nd)) +:+ Py.NL
                  +:+ "}").
    { unfold Json.dumps, transaction.
      cbn [Json.encode map Json.join fst snd]. unfold Json.encode_basestring_ascii.
      rewrite !append_assoc. reflexivity. }
    rewrite E, !lines_app_nl.
    assert (Hd : no_newline ("  " +:+ Py.DQ +:+ "data" +:+ Py.DQ +:+ ": "
                             +:+ Py.DQ +:+ Json.escape (data tx) +:+ Py.DQ +:+ ",")).
    { repeat apply no_newline_app; try reflexivity. now apply printable_no_newline. }
    assert (Hc : no_newline ("  " +:+ Py.DQ +:+ "chainId" +:+ Py.DQ +:+ ": "
                             +:+ Py.str (chainId nd))).
    { repeat apply no_newline_app; try reflexivity. apply no_newline_str. }
    rewrite Hd, Hc. reflexivity.
Qed.

Lemma emitted_file_text_witness :
  Py.is_ascii (Json.dumps 2 (transaction (Build_network 137 "Polygon" [])
                               (Build_tx_entry "T" (String Py.dquote "é"))))
  = true
  /\ lines (Json.dumps 2 (transaction (Build_network 137 "Polygon" [])
                            (Build_tx_entry "T" (String Py.dquote "é"))))
     = [ "{";
         "  " +:+ Py.DQ +:+ "to" +:+ Py.DQ +:+ ": " +:+ Py.DQ +:+ CONTRACT_ADDRESS +:+ Py.DQ +:+ ",";
         "  " +:+ Py.DQ +:+ "value" +:+ Py.DQ +:+ ": " +:+ Py.DQ +:+ "0x0" +:+ Py.DQ +:+ ",";
         "  " +:+ Py.DQ +:+ "data" +:+ Py.DQ +:+ ": "
           +:+ Py.DQ +:+ Json.escape (String Py.dquote "é") +:+ Py.DQ +:+ ",";
         "  " +:+ Py.DQ +:+ "chainId" +:+ Py.DQ +:+ ": " +:+ Py.str 137;
         "}" ].
Proof.
  apply (emitted_file_text (Build_network 137 "Polygon" [])
           (Build_tx_entry "T" (String Py.dquote "é"))).
  vm_compute. reflexivity.
Defined.

(** ** Running twice *)


